(** * A shallow embedding of the dashboard client [static/js/main.js]

    The browser script is modelled as computations in a state and
    exception monad.  The state holds the script's global variables, the
    DOM elements it touches, the log of issued HTTP requests, the log of
    [showAlert] toasts and of [console.error] lines, and an oracle giving
    the outcome of the n-th [fetch].  An [async] function that throws is
    modelled as a computation ending in [Throw]: its promise rejects and,
    when nobody awaits it, the rejection is uncaught.

    JS numbers are modelled as rationals ([Q]) plus [JNaN]; text written
    into the DOM is kept symbolic ([txt]): [`${v}`], [v.toFixed(d)] and
    [new Date(ms).toLocaleTimeString()] are constructors, not printed
    digits. *)

From Stdlib Require Import String Ascii List ZArith QArith Qround Bool Lia Lqa Permutation Sorted.
Set Warnings "-register-all".

Import ListNotations.
Open Scope string_scope.

(** ** JS values *)

Inductive jsval :=
| JUndefined
| JNull
| JBool (b : bool)
| JNum (q : Q)
| JNaN
| JStr (s : string)
| JArr (xs : list jsval)
| JObj (fields : list (string * jsval)).

(** Truthiness ([if (v)], [!v], [a || b]). *)
Definition truthy (v : jsval) : bool :=
  match v with
  | JUndefined | JNull | JNaN => false
  | JBool b => b
  | JNum q => negb (Qeq_bool q 0)
  | JStr s => negb (String.eqb s "")
  | JArr _ | JObj _ => true
  end.

(** [a || b] *)
Definition js_or (a b : jsval) : jsval := if truthy a then a else b.

(** Own-property lookup in an object literal; a missing key is [undefined]. *)
Fixpoint assoc_get (k : string) (fs : list (string * jsval)) : jsval :=
  match fs with
  | [] => JUndefined
  | (k', v) :: fs' => if String.eqb k k' then v else assoc_get k fs'
  end.

(** [o[k] = v]: overwrite in place when present, else append
    (object keys keep insertion order). *)
Fixpoint assoc_set (k : string) (v : jsval) (fs : list (string * jsval))
  : list (string * jsval) :=
  match fs with
  | [] => [(k, v)]
  | (k', v') :: fs' =>
      if String.eqb k k' then (k', v) :: fs' else (k', v') :: assoc_set k v fs'
  end.

(** [Object.entries(v)] for the values this script passes to it. *)
Definition entries (v : jsval) : list (string * jsval) :=
  match v with
  | JObj fs => fs
  | _ => []
  end.

(** Number coercion as used by arithmetic ([None] is NaN).  String
    parsing is not modelled: a string operand is taken as NaN. *)
Definition to_num (v : jsval) : option Q :=
  match v with
  | JNum q => Some q
  | JNull => Some 0%Q
  | JBool b => Some (if b then 1 else 0)%Q
  | _ => None
  end.

Definition of_num (o : option Q) : jsval :=
  match o with Some q => JNum q | None => JNaN end.

(** [Math.round]: nearest integer, halves rounded up. *)
Definition js_round (q : Q) : Z := Qfloor (q + (1 # 2)).

(** ** Text written into the DOM *)

Inductive txt :=
| TStr (s : string)          (* a literal *)
| TVal (v : jsval)           (* `${v}` *)
| TFixed (q : option Q) (d : nat)   (* q.toFixed(d); None is NaN *)
| TTime (ms : Z)             (* new Date(ms).toLocaleTimeString() *)
| TCat (a b : txt).          (* juxtaposition inside a template literal *)

Notation "a +++ b" := (TCat a b) (at level 60, right associativity).

(** ** Exceptions *)

Record js_error := mk_error { err_name : string; err_message : txt }.

Definition type_error (m : string) : js_error := mk_error "TypeError" (TStr m).

(** ** The network *)

Record request := mk_request {
  req_url : string;
  req_method : string;
  req_body : jsval              (* the value passed to JSON.stringify *)
}.

Definition GET (url : string) : request := mk_request url "GET" JUndefined.
Definition POST (url : string) (body : jsval) : request := mk_request url "POST" body.

(** What a [fetch] settles to: a rejection (network or transport failure)
    or a response; a response body that is not JSON is [None]. *)
Inductive fetch_result :=
| NetError (e : js_error)
| Response (ok : bool) (status : Z) (body : option jsval).

(** ** DOM *)

(** An element located by [getElementById]: its [textContent], its class
    list, its [disabled] flag and its [style.width]. *)
Record element := mk_element {
  el_text : txt;
  el_classes : list string;
  el_disabled : bool;
  el_width : txt
}.

(** A relay toolbar button: [className], the colour of its [<i>] icon
    ([None] when it has no icon), [style.background], [style.borderColor]. *)
Record relay_button := mk_relay_button {
  rb_className : string;
  rb_icon : option string;
  rb_background : string;
  rb_borderColor : string
}.

(** ** Program state *)

Record state := mk_state {
  (* global variables of main.js *)
  selectedFile : option string;
  printStartTime : option Z;
  consoleLines : list (txt * string);
  currentConfigTab : string;
  configData : list (string * jsval);
  relayToggling : bool;
  (* the document *)
  elements : string -> option element;   (* getElementById *)
  relayButtons : list (string * relay_button);
  (* the environment *)
  clock : Z;                       (* Date.now() *)
  net : nat -> fetch_result;       (* outcome of the n-th fetch *)
  requests : list request;         (* fetches issued, in order *)
  alerts : list (txt * string);    (* showAlert(message, type) calls *)
  logged : list txt                (* console.error lines *)
}.

Definition set_selectedFile v s := mk_state v s.(printStartTime) s.(consoleLines) s.(currentConfigTab) s.(configData) s.(relayToggling) s.(elements) s.(relayButtons) s.(clock) s.(net) s.(requests) s.(alerts) s.(logged).
Definition set_printStartTime v s := mk_state s.(selectedFile) v s.(consoleLines) s.(currentConfigTab) s.(configData) s.(relayToggling) s.(elements) s.(relayButtons) s.(clock) s.(net) s.(requests) s.(alerts) s.(logged).
Definition set_consoleLines v s := mk_state s.(selectedFile) s.(printStartTime) v s.(currentConfigTab) s.(configData) s.(relayToggling) s.(elements) s.(relayButtons) s.(clock) s.(net) s.(requests) s.(alerts) s.(logged).
Definition set_configData v s := mk_state s.(selectedFile) s.(printStartTime) s.(consoleLines) s.(currentConfigTab) v s.(relayToggling) s.(elements) s.(relayButtons) s.(clock) s.(net) s.(requests) s.(alerts) s.(logged).
Definition set_relayToggling v s := mk_state s.(selectedFile) s.(printStartTime) s.(consoleLines) s.(currentConfigTab) s.(configData) v s.(elements) s.(relayButtons) s.(clock) s.(net) s.(requests) s.(alerts) s.(logged).
Definition set_elements v s := mk_state s.(selectedFile) s.(printStartTime) s.(consoleLines) s.(currentConfigTab) s.(configData) s.(relayToggling) v s.(relayButtons) s.(clock) s.(net) s.(requests) s.(alerts) s.(logged).
Definition set_relayButtons v s := mk_state s.(selectedFile) s.(printStartTime) s.(consoleLines) s.(currentConfigTab) s.(configData) s.(relayToggling) s.(elements) v s.(clock) s.(net) s.(requests) s.(alerts) s.(logged).
Definition set_requests v s := mk_state s.(selectedFile) s.(printStartTime) s.(consoleLines) s.(currentConfigTab) s.(configData) s.(relayToggling) s.(elements) s.(relayButtons) s.(clock) s.(net) v s.(alerts) s.(logged).
Definition set_alerts v s := mk_state s.(selectedFile) s.(printStartTime) s.(consoleLines) s.(currentConfigTab) s.(configData) s.(relayToggling) s.(elements) s.(relayButtons) s.(clock) s.(net) s.(requests) v s.(logged).
Definition set_logged v s := mk_state s.(selectedFile) s.(printStartTime) s.(consoleLines) s.(currentConfigTab) s.(configData) s.(relayToggling) s.(elements) s.(relayButtons) s.(clock) s.(net) s.(requests) s.(alerts) v.

(** ** The monad *)

Inductive outcome (A : Type) :=
| Ret (a : A)
| Throw (e : js_error).
Arguments Ret {A} a.
Arguments Throw {A} e.

Definition M (A : Type) := state -> outcome A * state.

Definition ret {A} (a : A) : M A := fun s => (Ret a, s).
Definition throw {A} (e : js_error) : M A := fun s => (Throw e, s).

Definition bind {A B} (m : M A) (k : A -> M B) : M B :=
  fun s => match m s with
           | (Ret a, s') => k a s'
           | (Throw e, s') => (Throw e, s')
           end.

Notation "x <- m ;; k" := (bind m (fun x => k))
  (at level 61, m at next level, right associativity).
Notation "m ;;; k" := (bind m (fun _ => k))
  (at level 61, right associativity).

Definition modify (f : state -> state) : M unit := fun s => (Ret tt, f s).
Definition gets {A} (f : state -> A) : M A := fun s => (Ret (f s), s).

(** [try { m } catch (error) { h(error) }] *)
Definition try_catch {A} (m : M A) (h : js_error -> M A) : M A :=
  fun s => match m s with
           | (Ret a, s') => (Ret a, s')
           | (Throw e, s') => h e s'
           end.

(** [try { m } finally { f }] where [f] does not throw. *)
Definition try_finally {A} (m : M A) (f : M unit) : M A :=
  fun s => match m s with
           | (r, s') => match f s' with (_, s'') => (r, s'') end
           end.

(** ** Primitives of the browser *)

(** [fetch(r)] registers request [r] at once; the oracle gives its outcome. *)
Definition issue (r : request) : M fetch_result :=
  fun s => (Ret (s.(net) (length s.(requests))), set_requests (s.(requests) ++ [r])%list s).

Record response := mk_response { resp_ok : bool; resp_status : Z; resp_body : option jsval }.

(** [await] on a settled fetch: a rejection is thrown. *)
Definition settle (r : fetch_result) : M response :=
  match r with
  | NetError e => throw e
  | Response ok st b => ret (mk_response ok st b)
  end.

(** [await fetch(r)] *)
Definition fetch (r : request) : M response := res <- issue r ;; settle res.

(** [await response.json()] *)
Definition json (resp : response) : M jsval :=
  match resp.(resp_body) with
  | Some v => ret v
  | None => throw (mk_error "SyntaxError" (TStr "Unexpected token in JSON"))
  end.

(** Property read [v.k]: reading from [undefined] or [null] throws. *)
Definition prop (v : jsval) (k : string) : M jsval :=
  match v with
  | JUndefined | JNull => throw (type_error "Cannot read properties of undefined")
  | JObj fs => ret (assoc_get k fs)
  | _ => ret JUndefined
  end.

(** [v === 'lit'] *)
Definition js_streq (v : jsval) (lit : string) : bool :=
  match v with JStr s => String.eqb s lit | _ => false end.

(** [v > c] for a number literal [c] *)
Definition js_gt (v : jsval) (c : Q) : bool :=
  match to_num v with Some q => negb (Qle_bool q c) | None => false end.

(** [v.toFixed(d)] on a number; other values have no [toFixed]. *)
Definition toFixed (v : jsval) : M (option Q) :=
  match v with
  | JNum q => ret (Some q)
  | JNaN => ret None
  | _ => throw (type_error "toFixed is not a function")
  end.

(** [console.error(...)] *)
Definition console_error (t : txt) : M unit :=
  modify (fun s => set_logged (s.(logged) ++ [t])%list s).

(** [showAlert(message, type)]: one toast appended to the alert area
    (it removes itself after 4 s; the log keeps every call). *)
Definition showAlert (message : txt) (type_ : string) : M unit :=
  modify (fun s => set_alerts (s.(alerts) ++ [(message, type_)])%list s).

(** [addConsoleMessage(message, type = '')]; the console area is
    re-rendered from [consoleLines] by [updateConsole]. *)
Definition console_push (line : txt * string) (ls : list (txt * string)) :=
  let ls' := (ls ++ [line])%list in
  if Nat.ltb 50 (length ls') then tl ls' else ls'.

Definition addConsoleMessage (message : txt) (type_ : string) : M unit :=
  modify (fun s =>
    let line := TStr "[" +++ TTime s.(clock) +++ TStr "] " +++ message in
    set_consoleLines (console_push (line, type_) s.(consoleLines)) s).

(** *** Elements *)

(** The document maps each id to the element [getElementById] finds. *)
Definition el_lookup (id : string) (els : string -> option element) : option element :=
  els id.

(** An assignment to a property of the element with that id. *)
Definition el_update (id : string) (f : element -> element) (els : string -> option element)
  : string -> option element :=
  fun id' => if String.eqb id id' then option_map f (els id') else els id'.

(** [document.getElementById(id)], dereferenced: [null] throws. *)
Definition get_el (id : string) : M element :=
  fun s => match el_lookup id s.(elements) with
           | Some e => (Ret e, s)
           | None => (Throw (type_error "Cannot read properties of null"), s)
           end.

Definition update_el (id : string) (f : element -> element) : M unit :=
  _ <- get_el id ;; modify (fun s => set_elements (el_update id f s.(elements)) s).

Definition set_text (t : txt) (e : element) : element :=
  mk_element t e.(el_classes) e.(el_disabled) e.(el_width).
(** [el.className = 'a b'] *)
Definition set_classes (cs : list string) (e : element) : element :=
  mk_element e.(el_text) cs e.(el_disabled) e.(el_width).
Definition set_disabled (b : bool) (e : element) : element :=
  mk_element e.(el_text) e.(el_classes) b e.(el_width).
Definition set_width (t : txt) (e : element) : element :=
  mk_element e.(el_text) e.(el_classes) e.(el_disabled) t.

Definition class_add (c : string) (e : element) : element :=
  if existsb (String.eqb c) e.(el_classes) then e
  else set_classes (e.(el_classes) ++ [c])%list e.
Definition class_remove (c : string) (e : element) : element :=
  set_classes (filter (fun c' => negb (String.eqb c c')) e.(el_classes)) e.
Definition has_class (c : string) (e : element) : bool :=
  existsb (String.eqb c) e.(el_classes).

(** ** Config modal *)

(** [configData[section][key] = value] on the value of an entry; writing a
    property of a primitive is silently ignored (sloppy-mode script). *)
Definition obj_set_prop (o : jsval) (k : string) (v : jsval) : jsval :=
  match o with JObj fs => JObj (assoc_set k v fs) | _ => o end.

Definition updateConfigValue (section key : string) (value : jsval) : M unit :=
  modify (fun s =>
    let cd := s.(configData) in
    let cd1 := if truthy (assoc_get section cd) then cd else assoc_set section (JObj []) cd in
    let cd2 := assoc_set section (obj_set_prop (assoc_get section cd1) key value) cd1 in
    set_configData cd2 s).

Definition updatePluginConfigValue (pluginName key : string) (value : jsval) : M unit :=
  modify (fun s =>
    let cd := s.(configData) in
    let cd1 := if truthy (assoc_get "plugins" cd) then cd else assoc_set "plugins" (JObj []) cd in
    let ps := assoc_get "plugins" cd1 in
    let ps1 := if truthy (assoc_get pluginName (entries ps)) then ps
               else obj_set_prop ps pluginName (JObj []) in
    let ps2 := obj_set_prop ps1 pluginName
                 (obj_set_prop (assoc_get pluginName (entries ps1)) key value) in
    set_configData (assoc_set "plugins" ps2 cd1) s).

Definition closeConfigModal : M unit := update_el "configModal" (class_remove "active").

Definition openConfigModal : M unit := update_el "configModal" (class_add "active").

(** An unawaited [loadConfigTab(tab)] runs synchronously up to the first
    [await fetch]: the request below is issued.  The rest (rendering the
    tab's form into [configContent]) runs in a later task and touches
    neither [configData] nor the toasts. *)
Definition loadConfigTab_url (tab : string) : string :=
  if String.eqb tab "general" then "/api/config/app"
  else if String.eqb tab "printer" then "/api/config/app"
  else if String.eqb tab "interface" then "/api/config/app"
  else if String.eqb tab "plugins" then "/api/config/plugins/list"
  else "/api/config/ui/config_tabs".

Definition loadConfigTab_start (tab : string) : M unit :=
  _ <- issue (GET (loadConfigTab_url tab)) ;; ret tt.

(** Issue several fetches without awaiting them (the [promises] array). *)
Fixpoint issue_all (rs : list request) : M (list fetch_result) :=
  match rs with
  | [] => ret []
  | r :: rs' => x <- issue r ;; xs <- issue_all rs' ;; ret (x :: xs)
  end.

(** [await Promise.all(promises)]: rejects when one of them rejects
    (with the first rejection found in array order). *)
Fixpoint promise_all (xs : list fetch_result) : M unit :=
  match xs with
  | [] => ret tt
  | NetError e :: _ => throw e
  | Response _ _ _ :: xs' => promise_all xs'
  end.

(** The POSTs [saveConfig] builds from the pending edits, in loop order. *)
Definition app_config_requests (cd : list (string * jsval)) : list request :=
  flat_map (fun '(section, sectionData) =>
              if String.eqb section "plugins" then []
              else map (fun '(key, value) =>
                          POST "/api/config/app"
                            (JObj [("section", JStr section); ("key", JStr key); ("value", value)]))
                       (entries sectionData))
           cd.

Definition plugin_config_requests (cd : list (string * jsval)) : list request :=
  if truthy (assoc_get "plugins" cd) then
    map (fun '(pluginName, pluginConfig) =>
           POST ("/api/config/plugins/" ++ pluginName) (JObj [("config", pluginConfig)]))
        (entries (assoc_get "plugins" cd))
  else [].

Definition saveConfig : M unit :=
  try_catch
    (cd <- gets configData ;;
     rs <- issue_all (app_config_requests cd ++ plugin_config_requests cd)%list ;;
     promise_all rs ;;;
     showAlert (TStr "Configuration saved successfully") "success" ;;;
     modify (set_configData []) ;;;
     closeConfigModal)
    (fun error => showAlert (TStr "Error saving configuration: " +++ err_message error) "error").

(** [resetConfig()]; [confirmed] is the user's answer to [confirm(...)]. *)
Definition resetConfig (confirmed : bool) : M unit :=
  if negb confirmed then ret tt else
  try_catch
    (resp <- fetch (POST "/api/config/reset" (JObj [("section", JNull)])) ;;
     result <- json resp ;;
     success <- prop result "success" ;;
     if truthy success then
       showAlert (TStr "Configuration reset to defaults") "success" ;;;
       modify (set_configData []) ;;;
       tab <- gets currentConfigTab ;;
       loadConfigTab_start tab
     else showAlert (TStr "Failed to reset configuration") "error")
    (fun error => showAlert (TStr "Error resetting configuration: " +++ err_message error) "error").

(** ** Plugins *)

Definition togglePlugin (pluginName : string) (enable : bool) : M unit :=
  try_catch
    (let action := if enable then "enable" else "disable" in
     resp <- fetch (POST ("/api/config/plugins/" ++ pluginName ++ "/" ++ action) JUndefined) ;;
     result <- json resp ;;
     success <- prop result "success" ;;
     if truthy success then
       m <- prop result "message" ;;
       showAlert (TVal m) "success" ;;;
       tab <- gets currentConfigTab ;;
       (if String.eqb tab "plugins" then loadConfigTab_start "plugins" else ret tt)
     else
       e <- prop result "error" ;;
       showAlert (TVal e) "error")
    (fun error =>
       showAlert (TStr "Error " +++ TStr (if enable then "enabling" else "disabling")
                  +++ TStr " plugin: " +++ err_message error) "error").

Definition reloadPlugin (pluginName : string) : M unit :=
  try_catch
    (resp <- fetch (POST ("/api/config/plugins/" ++ pluginName ++ "/reload") JUndefined) ;;
     result <- json resp ;;
     success <- prop result "success" ;;
     if truthy success then
       m <- prop result "message" ;;
       showAlert (TVal m) "success" ;;;
       tab <- gets currentConfigTab ;;
       (if String.eqb tab "plugins" then loadConfigTab_start "plugins" else ret tt)
     else
       e <- prop result "error" ;;
       showAlert (TVal e) "error")
    (fun error => showAlert (TStr "Error reloading plugin: " +++ err_message error) "error").

(** ** Files *)

(** An unawaited [updateFiles()]: its [fetch('/api/files')] is issued now;
    its continuation only rewrites [fileList]. *)
Definition updateFiles_start : M unit := _ <- issue (GET "/api/files") ;; ret tt.

(** [uploadFiles(files)]; the [FormData] body is modelled by the file names. *)
Definition uploadFiles (files : list string) : M unit :=
  try_catch
    (showAlert (TStr "Uploading...") "warning" ;;;
     addConsoleMessage (TStr "Uploading " +++ TVal (JNum (Z.of_nat (length files) # 1))
                        +++ TStr " file(s)...") "" ;;;
     resp <- fetch (POST "/api/upload" (JObj [("files", JArr (map JStr files))])) ;;
     result <- json resp ;;
     success <- prop result "success" ;;
     if truthy success then
       n <- prop result "total_uploaded" ;;
       showAlert (TStr "Uploaded " +++ TVal n +++ TStr " files successfully") "success" ;;;
       addConsoleMessage (TStr "Successfully uploaded " +++ TVal n +++ TStr " file(s)") "success" ;;;
       errs <- prop result "total_errors" ;;
       (if js_gt errs 0 then
          addConsoleMessage (TVal errs +++ TStr " file(s) failed to upload") "warning"
        else ret tt) ;;;
       updateFiles_start
     else
       showAlert (TStr "Upload failed") "error" ;;;
       addConsoleMessage (TStr "Upload failed") "error")
    (fun error =>
       showAlert (TStr "Upload error: " +++ err_message error) "error" ;;;
       addConsoleMessage (TStr "Upload error: " +++ err_message error) "error").

(** [cleanupFiles()]; [confirmed] is the answer to [confirm(...)]. *)
Definition cleanupFiles (confirmed : bool) : M unit :=
  if negb confirmed then ret tt else
  try_catch
    (addConsoleMessage (TStr "Starting file cleanup...") "" ;;;
     resp <- fetch (POST "/api/cleanup_files"
                     (JObj [("max_files", JNum 50); ("max_age_days", JNum 30)])) ;;
     result <- json resp ;;
     success <- prop result "success" ;;
     if truthy success then
       n <- prop result "deleted_count" ;;
       showAlert (TStr "Cleanup completed: " +++ TVal n +++ TStr " files removed") "success" ;;;
       m <- prop result "message" ;;
       addConsoleMessage (TVal m) "success" ;;;
       updateFiles_start
     else
       showAlert (TStr "Cleanup failed") "error" ;;;
       e <- prop result "error" ;;
       addConsoleMessage (TStr "Cleanup failed: " +++ TVal e) "error")
    (fun error =>
       showAlert (TStr "Cleanup error: " +++ err_message error) "error" ;;;
       addConsoleMessage (TStr "Cleanup error: " +++ err_message error) "error").

(** ** Printer actions *)

(** The common tail of the printer commands:
    [showAlert(result.message, result.success ? 'success' : 'error');
     addConsoleMessage(result.message, ...)] *)
Definition report_message (result : jsval) : M unit :=
  m <- prop result "message" ;;
  success <- prop result "success" ;;
  let ty := if truthy success then "success" else "error" in
  showAlert (TVal m) ty ;;;
  addConsoleMessage (TVal m) ty.

(** A printer command with no try/catch: console line, POST, JSON, report. *)
Definition printer_command (intro : txt) (r : request) : M unit :=
  addConsoleMessage intro "" ;;;
  resp <- fetch r ;;
  result <- json resp ;;
  report_message result.

Definition connectPrinter : M unit :=
  addConsoleMessage (TStr "Attempting to connect to printer...") "" ;;;
  resp <- fetch (POST "/api/connect" JUndefined) ;;
  result <- json resp ;;
  m <- prop result "message" ;;
  success <- prop result "success" ;;
  e <- prop result "error" ;;
  let message := js_or m (if truthy success then JStr "Connected" else e) in
  let ty := if truthy success then "success" else "error" in
  showAlert (TVal message) ty ;;;
  addConsoleMessage (TVal message) ty.

Definition disconnectPrinter : M unit :=
  printer_command (TStr "Disconnecting from printer...") (POST "/api/disconnect" JUndefined).

Definition printFile (filename : string) : M unit :=
  printer_command (TStr "Starting print: " +++ TStr filename)
    (POST "/api/print_file" (JObj [("filename", JStr filename)])).

(** [if (!selectedFile)]: [null] and the empty string are falsy. *)
Definition file_truthy (o : option string) : bool :=
  match o with Some f => negb (String.eqb f "") | None => false end.

Definition startPrint : M unit :=
  sel <- gets selectedFile ;;
  match sel with
  | Some f => if negb (String.eqb f "") then printFile f
              else showAlert (TStr "No file selected") "warning" ;;;
                   addConsoleMessage (TStr "Cannot start print - no file selected") "warning"
  | None => showAlert (TStr "No file selected") "warning" ;;;
            addConsoleMessage (TStr "Cannot start print - no file selected") "warning"
  end.

Definition pausePrint : M unit :=
  printer_command (TStr "Pausing print...") (POST "/api/pause" JUndefined).

Definition resumePrint : M unit :=
  printer_command (TStr "Resuming print...") (POST "/api/resume" JUndefined).

Definition stopPrint (confirmed : bool) : M unit :=
  if negb confirmed then ret tt else
  printer_command (TStr "Stopping print...") (POST "/api/stop" JUndefined).

Definition homeZ : M unit :=
  printer_command (TStr "Homing Z axis...") (POST "/api/home_z" JUndefined).

Definition moveZ (distance : Q) : M unit :=
  printer_command (TStr "Moving Z axis " +++ TVal (JNum distance) +++ TStr "mm...")
    (POST "/api/move_z" (JObj [("distance", JNum distance)])).

(** ** Status polling *)

Definition start_truthy (o : option Z) : bool :=
  match o with Some t => negb (Z.eqb t 0) | None => false end.

Definition showPrintingView (status : jsval) : M unit :=
  overlay <- get_el "printingOverlay" ;;
  if has_class "active" overlay then ret tt else
  update_el "printingOverlay" (class_add "active") ;;;
  ps <- prop status "print_status" ;;
  st <- prop ps "state" ;;
  pst <- gets printStartTime ;;
  if js_streq st "PRINTING" && negb (start_truthy pst) then
    now <- gets clock ;; modify (set_printStartTime (Some now))
  else ret tt.

Definition hidePrintingView : M unit :=
  update_el "printingOverlay" (class_remove "active") ;;;
  modify (set_printStartTime None).

Definition updateButtons (status : jsval) : M unit :=
  connected <- prop status "connected" ;;
  ps <- prop status "print_status" ;; st <- prop ps "state" ;;
  ps' <- prop status "print_status" ;; st' <- prop ps' "state" ;;
  let c := truthy connected in
  let printing := js_streq st "PRINTING" in
  let paused := js_streq st' "PAUSED" in
  sel <- gets selectedFile ;;
  update_el "connectBtn" (set_disabled c) ;;;
  update_el "disconnectBtn" (set_disabled (negb c)) ;;;
  update_el "startBtn" (set_disabled (negb c || printing || paused || negb (file_truthy sel))) ;;;
  update_el "pauseBtn" (set_disabled (negb c || negb printing)) ;;;
  update_el "resumeBtn" (set_disabled (negb c || negb paused)) ;;;
  update_el "stopBtn" (set_disabled (negb c || (negb printing && negb paused))).

(** Number arithmetic on possibly-NaN operands. *)
Definition nmap2 (f : Q -> Q -> Q) (a b : option Q) : option Q :=
  match a, b with Some x, Some y => Some (f x y) | _, _ => None end.
Definition nround (a : option Q) : option Q :=
  match a with Some x => Some (inject_Z (js_round x)) | None => None end.
(** [Math.max(c, a)]: NaN when an operand is NaN. *)
Definition nmax (c : Q) (a : option Q) : option Q :=
  match a with Some x => Some (if Qle_bool c x then x else c) | None => None end.

(** [formatTime(seconds)] for [seconds >= 0] (there [%] is the floored
    remainder). *)
Definition formatTime (seconds : Q) : txt :=
  let hours := Qfloor (seconds / 3600) in
  let minutes := Qfloor ((seconds - 3600 * inject_Z (Qfloor (seconds / 3600))) / 60) in
  if Z.ltb 0 hours then TVal (JNum (inject_Z hours)) +++ TStr "h " +++ TVal (JNum (inject_Z minutes)) +++ TStr "m"
  else TVal (JNum (inject_Z minutes)) +++ TStr "m".

Definition sel_value (o : option string) : jsval :=
  match o with Some f => JStr f | None => JNull end.

Definition updatePrintingOverlay (status : jsval) : M unit :=
  overlay <- get_el "printingOverlay" ;;
  if negb (has_class "active" overlay) then ret tt else
  sf <- prop status "selected_file" ;;
  sel <- gets selectedFile ;;
  let fileName := js_or sf (js_or (sel_value sel) (JStr "Unknown File")) in
  update_el "printingFileName" (set_text (TVal fileName)) ;;;
  ps <- prop status "print_status" ;; progress <- prop ps "progress_percent" ;;
  ps' <- prop status "print_status" ;; total <- prop ps' "total_bytes" ;;
  let estimatedLayers := nmax 1 (nround (nmap2 Qdiv (to_num total) (Some 10000))) in
  let currentLayer := nround (nmap2 Qmult (nmap2 Qdiv (to_num progress) (Some 100)) estimatedLayers) in
  update_el "printingLayerInfo"
    (set_text (TStr "Layer " +++ TVal (of_num currentLayer) +++ TStr " of " +++ TVal (of_num estimatedLayers))) ;;;
  p <- toFixed progress ;;
  update_el "printingProgress" (set_text (TFixed p 0 +++ TStr "%")) ;;;
  z <- prop status "z_position" ;; zq <- toFixed z ;;
  update_el "printingZPos" (set_text (TFixed zq 2)) ;;;
  pst <- gets printStartTime ;; now <- gets clock ;;
  (match pst, to_num progress with
   | Some t, Some pr =>
       if start_truthy pst && js_gt progress 1 then
         let elapsed := (inject_Z (now - t) / 1000)%Q in
         let totalEstimated := (elapsed / pr * 100)%Q in
         let remaining := if Qle_bool 0 (totalEstimated - elapsed) then (totalEstimated - elapsed)%Q else 0%Q in
         update_el "printingTimeLeft" (set_text (formatTime remaining))
       else update_el "printingTimeLeft" (set_text (TStr "--"))
   | _, _ => update_el "printingTimeLeft" (set_text (TStr "--"))
   end) ;;;
  update_el "printingBytes" (set_text (TFixed p 0 +++ TStr "%")).

(** The body of [updateStatus] once the JSON payload is at hand. *)
Definition status_apply (status : jsval) : M unit :=
  connected <- prop status "connected" ;;
  (if truthy connected then
     update_el "connectionStatus" (set_text (TStr "Connected")) ;;;
     update_el "connectionStatus" (set_classes ["status-value"; "status-connected"])
   else
     update_el "connectionStatus" (set_text (TStr "Disconnected")) ;;;
     update_el "connectionStatus" (set_classes ["status-value"; "status-disconnected"])) ;;;
  _ <- get_el "printStatus" ;;
  ps <- prop status "print_status" ;; st <- prop ps "state" ;;
  update_el "printStatus" (set_text (TVal st)) ;;;
  (if js_streq st "PRINTING" then
     update_el "printStatus" (set_classes ["status-value"; "status-printing"]) ;;;
     showPrintingView status
   else if js_streq st "PAUSED" then
     update_el "printStatus" (set_classes ["status-value"; "status-warning"]) ;;;
     showPrintingView status
   else
     update_el "printStatus" (set_classes ["status-value"]) ;;;
     (if js_streq st "IDLE" then hidePrintingView else ret tt)) ;;;
  ps' <- prop status "print_status" ;; progress <- prop ps' "progress_percent" ;;
  p <- toFixed progress ;;
  update_el "progressStatus" (set_text (TFixed p 1 +++ TStr "%")) ;;;
  update_el "progressBar" (set_width (TVal progress +++ TStr "%")) ;;;
  z <- prop status "z_position" ;; zq <- toFixed z ;;
  update_el "zPosition" (set_text (TFixed zq 2 +++ TStr " mm")) ;;;
  updateButtons status ;;;
  updatePrintingOverlay status.

(** [updateStatus()] after its [fetch('/api/status')] has settled with [r]:
    the continuation that runs when the response arrives. *)
Definition updateStatus_resume (r : fetch_result) : M unit :=
  try_catch
    (resp <- settle r ;;
     status <- json resp ;;
     status_apply status)
    (fun error => console_error (TStr "Status error: " +++ err_message error)).

Definition updateStatus : M unit :=
  r <- issue (GET "/api/status") ;; updateStatus_resume r.

(** ** Relay controller *)

(** [s.replace(/relay-(on|off)/g, '')]: one left-to-right scan; after a
    match the scan resumes behind it ([skip] characters still to drop). *)
Fixpoint strip_aux (skip : nat) (s : string) : string :=
  match s with
  | EmptyString => EmptyString
  | String c rest =>
      match skip with
      | S k => strip_aux k rest
      | O => if prefix "relay-on" s then strip_aux 7 rest
             else if prefix "relay-off" s then strip_aux 8 rest
             else String c (strip_aux 0 rest)
      end
  end.

Definition replace_relay (s : string) : string := strip_aux 0 s.

(** JS white space within the 8-bit range: TAB, LF, VT, FF, CR, SPACE, NBSP. *)
Definition is_ws (c : ascii) : bool :=
  let n := nat_of_ascii c in
  (Nat.leb 9 n && Nat.leb n 13) || Nat.eqb n 32 || Nat.eqb n 160.

Fixpoint trim_start (s : string) : string :=
  match s with
  | EmptyString => EmptyString
  | String c rest => if is_ws c then trim_start rest else s
  end.

Fixpoint trim_end (s : string) : string :=
  match s with
  | EmptyString => EmptyString
  | String c rest =>
      let r := trim_end rest in
      if is_ws c && String.eqb r "" then EmptyString else String c r
  end.

(** [s.trim()] *)
Definition trim (s : string) : string := trim_end (trim_start s).

(** [className.replace(/relay-(on|off)/g, '').trim()] *)
Definition strip_relay_classes (cls : string) : string := trim (replace_relay cls).

(** The writes [updateRelayButtonState] makes to a button it found. *)
Definition paint_button (on : bool) (b : relay_button) : relay_button :=
  mk_relay_button
    (strip_relay_classes b.(rb_className) ++ " relay-" ++ (if on then "on" else "off"))
    (option_map (fun _ => if on then "#28a745" else "#c7c7c7") b.(rb_icon))
    (if on then "#2d5a31" else "#3a3a3a")
    (if on then "#28a745" else "#555").

(** [document.querySelector(`[onclick="toggleRelay('${relayId}')"]`)]
    finds the first button of that relay. *)
Fixpoint rb_lookup (id : string) (bs : list (string * relay_button)) : option relay_button :=
  match bs with
  | [] => None
  | (id', b) :: bs' => if String.eqb id id' then Some b else rb_lookup id bs'
  end.

Fixpoint rb_update (id : string) (f : relay_button -> relay_button)
         (bs : list (string * relay_button)) : list (string * relay_button) :=
  match bs with
  | [] => []
  | (id', b) :: bs' =>
      if String.eqb id id' then (id', f b) :: bs' else (id', b) :: rb_update id f bs'
  end.

Definition updateRelayButtonState (relayId : string) (state : jsval) : M unit :=
  modify (fun s => set_relayButtons (rb_update relayId (paint_button (truthy state)) s.(relayButtons)) s).

Definition http_error (status : Z) : js_error :=
  mk_error "Error" (TStr "HTTP error! status: " +++ TVal (JNum (status # 1))).

(** The part of [toggleRelay] after its fetch settled with [r]: the rest of
    the [try], the [catch] and the [finally]. *)
Definition toggleRelay_resume (relayId : string) (r : fetch_result) : M unit :=
  try_finally
    (try_catch
       (resp <- settle r ;;
        if negb resp.(resp_ok) then throw (http_error resp.(resp_status)) else
        data <- json resp ;;
        success <- prop data "success" ;;
        if truthy success then
          st <- prop data "state" ;;
          updateRelayButtonState relayId st ;;;
          m <- prop data "message" ;;
          showAlert (TVal m) "success"
        else
          m <- prop data "message" ;;
          showAlert (TVal (js_or m (JStr "Failed to toggle relay"))) "error")
       (fun error =>
          console_error (TStr "Relay toggle error: " +++ err_message error) ;;;
          showAlert (TStr "Network error - please try again") "error"))
    (modify (set_relayToggling false)).

Definition toggle_url (relayId : string) : string :=
  "/api/plugins/relay_controller/toggle_relay/" ++ relayId.

Definition toggleRelay (relayId : string) : M unit :=
  busy <- gets relayToggling ;;
  if busy then ret tt else
  modify (set_relayToggling true) ;;;
  r <- issue (GET (toggle_url relayId)) ;;
  toggleRelay_resume relayId r.

Definition setRelayState (relayId : string) (state : bool) : M bool :=
  try_catch
    (let stateParam := if state then "on" else "off" in
     resp <- fetch (GET ("/api/plugins/relay_controller/set_relay/" ++ relayId ++ "/" ++ stateParam)) ;;
     if negb resp.(resp_ok) then throw (http_error resp.(resp_status)) else
     data <- json resp ;;
     success <- prop data "success" ;;
     if truthy success then
       st <- prop data "state" ;;
       updateRelayButtonState relayId st ;;;
       ret true
     else
       m <- prop data "message" ;;
       console_error (TStr "Failed to set relay state: " +++ TVal m) ;;;
       ret false)
    (fun error => console_error (TStr "Set relay state error: " +++ err_message error) ;;; ret false).

(** ** A page to run the operations on *)

Definition blank : element := mk_element (TStr "") [] false (TStr "").

Definition page_ids : list string :=
  ["connectionStatus"; "printStatus"; "progressStatus"; "progressBar"; "zPosition";
   "connectBtn"; "disconnectBtn"; "startBtn"; "pauseBtn"; "resumeBtn"; "stopBtn";
   "printingOverlay"; "printingFileName"; "printingLayerInfo"; "printingProgress";
   "printingZPos"; "printingTimeLeft"; "printingBytes"; "configModal"].

Definition page : string -> option element :=
  fun id => if existsb (String.eqb id) page_ids then Some blank else None.

(** The toolbar button the relay plugin renders for a relay that is off. *)
Definition relay_btn_off : relay_button :=
  mk_relay_button "relay-toolbar-btn relay-off" (Some "") "" "".

(** A freshly loaded page whose n-th fetch settles with [netw n]. *)
Definition init (netw : nat -> fetch_result) : state :=
  mk_state None None [] "general" [] false page [("relay_1", relay_btn_off)]
           1700000000000 netw [] [] [].

Definition offline : nat -> fetch_result :=
  fun _ => NetError (type_error "Failed to fetch").

Definition reply (v : jsval) : fetch_result := Response true 200 (Some v).

(** ** Event sequences *)

(** The console against interleaved settings edits: [Log] is an
    [addConsoleMessage] call, [SetMaxLines] is the settings form's
    [updateConfigValue('interface', 'console_max_lines', v)]. *)
Inductive console_event :=
| Log (message : txt) (type_ : string)
| SetMaxLines (v : jsval).

Definition console_step (e : console_event) : M unit :=
  match e with
  | Log m ty => addConsoleMessage m ty
  | SetMaxLines v => updateConfigValue "interface" "console_max_lines" v
  end.

Fixpoint run_console (es : list console_event) : M unit :=
  match es with
  | [] => ret tt
  | e :: es' => console_step e ;;; run_console es'
  end.

(** Relay toggling on the event loop: [Press] is a [toggleRelay] call (a
    click or Ctrl+1..4), [Arrive i r] delivers outcome [r] to the [i]-th
    toggle request still in flight, whose continuation then runs. *)
Inductive relay_event :=
| Press (relayId : string)
| Arrive (i : nat) (r : fetch_result).

(** The synchronous part of [toggleRelay]: up to its [await fetch].
    [true] when a request was issued. *)
Definition toggleRelay_start (relayId : string) : M bool :=
  busy <- gets relayToggling ;;
  if busy then ret false else
  modify (set_relayToggling true) ;;;
  _ <- issue (GET (toggle_url relayId)) ;;
  ret true.

Fixpoint remove_nth {A} (i : nat) (l : list A) : list A :=
  match l, i with
  | [], _ => []
  | _ :: l', O => l'
  | x :: l', S i' => x :: remove_nth i' l'
  end.

(** A world: the state and the relay ids of the toggles in flight. *)
Definition relay_world := (state * list string)%type.

Definition relay_step (w : relay_world) (e : relay_event) : relay_world :=
  let (s, inflight) := w in
  match e with
  | Press rid =>
      match toggleRelay_start rid s with
      | (Ret true, s') => (s', (inflight ++ [rid])%list)
      | (_, s') => (s', inflight)
      end
  | Arrive i r =>
      match nth_error inflight i with
      | Some rid => (snd (toggleRelay_resume rid r s), remove_nth i inflight)
      | None => w
      end
  end.

Definition run_relay (w : relay_world) (es : list relay_event) : relay_world :=
  fold_left relay_step es w.

(** A successful answer of the relay endpoint. *)
Definition relay_ok (on : bool) : fetch_result :=
  reply (JObj [("success", JBool true); ("state", JBool on); ("message", JStr "Relay toggled")]).

(** Whether the answer to [resetConfig]'s POST, the next request the
    page issues, carries a truthy [success]. *)
Definition reset_succeeded (s : state) : bool :=
  match s.(net) (length s.(requests)) with
  | Response _ _ (Some (JObj fs)) => truthy (assoc_get "success" fs)
  | _ => false
  end.

(** Every request the page issues gets an HTTP answer (no transport
    failure). *)
Definition all_answered (s : state) : Prop :=
  forall i, exists ok st b, s.(net) i = Response ok st b.

(** Every request the page issues fails at the transport level. *)
Definition all_failed (s : state) : Prop :=
  forall i, exists e, s.(net) i = NetError e.

(** Running [m] from [s] returns normally and adds exactly one toast. *)
Definition one_toast {A} (m : M A) (s : state) : Prop :=
  (exists a, fst (m s) = Ret a) /\ length (alerts (snd (m s))) = S (length (alerts s)).

(** *** The status display *)

(** [document.getElementById(id)] finds an element. *)
Definition el_present (id : string) (els : string -> option element) : bool :=
  match el_lookup id els with Some _ => true | None => false end.

(** Every element of the page the status code reads or writes exists. *)
Definition dom_ready (s : state) : bool :=
  forallb (fun id => el_present id s.(elements)) page_ids.

(** The printing overlay is shown (has the 'active' class). *)
Definition overlay_active (s : state) : bool :=
  match el_lookup "printingOverlay" s.(elements) with
  | Some e => has_class "active" e
  | None => false
  end.

Definition el_get {A} (f : element -> A) (id : string) (s : state) : option A :=
  option_map f (el_lookup id s.(elements)).

Definition button_ids : list string :=
  ["connectBtn"; "disconnectBtn"; "startBtn"; "pauseBtn"; "resumeBtn"; "stopBtn"].

Definition status_view_t : Type :=
  (option (txt * list string) * option (txt * list string) * option txt * option txt
   * option txt * list (option bool) * bool)%type.

(** What [updateStatus] displays: the connection and print status (text and
    classes), the progress text and bar width, the Z position, which
    buttons are disabled, and whether the printing overlay is shown. *)
Definition status_view (s : state) : status_view_t :=
  (el_get (fun e => (e.(el_text), e.(el_classes))) "connectionStatus" s,
   el_get (fun e => (e.(el_text), e.(el_classes))) "printStatus" s,
   el_get el_text "progressStatus" s,
   el_get el_width "progressBar" s,
   el_get el_text "zPosition" s,
   map (fun id => el_get el_disabled id s) button_ids,
   overlay_active s).

Definition is_num (v : jsval) : bool := match v with JNum _ => true | _ => false end.

(** A status payload of the shape the backend sends: an object whose
    [print_status] is an object with state IDLE, PRINTING or PAUSED and a
    numeric [progress_percent], and with a numeric [z_position]. *)
Definition status_ok (status : jsval) : bool :=
  match status with
  | JObj fs =>
      match assoc_get "print_status" fs with
      | JObj psf =>
          let st := assoc_get "state" psf in
          (js_streq st "IDLE" || js_streq st "PRINTING" || js_streq st "PAUSED")
          && is_num (assoc_get "progress_percent" psf) && is_num (assoc_get "z_position" fs)
      | _ => false
      end
  | _ => false
  end.

(** The display a payload calls for, given the selected file. *)
Definition shown_status (status : jsval) (sel : option string) : status_view_t :=
  let fs := entries status in
  let c := truthy (assoc_get "connected" fs) in
  let psf := entries (assoc_get "print_status" fs) in
  let st := assoc_get "state" psf in
  let printing := js_streq st "PRINTING" in
  let paused := js_streq st "PAUSED" in
  let progress := assoc_get "progress_percent" psf in
  (Some (TStr (if c then "Connected" else "Disconnected"),
         ["status-value"; if c then "status-connected" else "status-disconnected"]),
   Some (TVal st, if printing then ["status-value"; "status-printing"]
                  else if paused then ["status-value"; "status-warning"]
                  else ["status-value"]),
   Some (TFixed (to_num progress) 1 +++ TStr "%"),
   Some (TVal progress +++ TStr "%"),
   Some (TFixed (to_num (assoc_get "z_position" fs)) 2 +++ TStr " mm"),
   map Some [c; negb c; negb c || printing || paused || negb (file_truthy sel);
             negb c || negb printing; negb c || negb paused;
             negb c || (negb printing && negb paused)],
   printing || paused).

(** ** Racing requests *)

(** Two event-loop tasks, one after the other: an exception escaping the
    first (an unhandled promise rejection) does not stop the second. *)
Definition run_tasks (m k : M unit) : M unit := fun s => k (snd (m s)).

(** Two [updateStatus] calls in flight at once (the 3-second interval
    fires while an earlier poll waits): both GET requests are sent, then
    each call resumes when its response arrives; [first_back] tells
    whether the first poll's response arrives first. *)
Definition two_polls (first_back : bool) : M unit :=
  r1 <- issue (GET "/api/status") ;;
  r2 <- issue (GET "/api/status") ;;
  if first_back then run_tasks (updateStatus_resume r1) (updateStatus_resume r2)
  else run_tasks (updateStatus_resume r2) (updateStatus_resume r1).

(** The part of [printer_command] after its [await fetch(...)]. *)
Definition printer_command_resume (rc : fetch_result) : M unit :=
  resp <- settle rc ;; result <- json resp ;; report_message result.

(** A poll in flight when the user clicks a printer command button
    (connect aside, every printer button runs [printer_command]): the
    poll's request, the command's console line and request, then the two
    continuations in arrival order. *)
Definition poll_and_command (intro : txt) (r : request) (poll_back_first : bool) : M unit :=
  rp <- issue (GET "/api/status") ;;
  addConsoleMessage intro "" ;;;
  rc <- issue r ;;
  if poll_back_first then run_tasks (updateStatus_resume rp) (printer_command_resume rc)
  else run_tasks (printer_command_resume rc) (updateStatus_resume rp).

(** ** More of the page *)

(** [v < c] for a number literal [c] *)
Definition js_lt (v : jsval) (c : Q) : bool :=
  match to_num v with Some q => negb (Qle_bool c q) | None => false end.

(** [formatSize(bytes)] *)
Definition formatSize (bytes : jsval) : txt :=
  if js_lt bytes 1024 then TVal bytes +++ TStr " B"
  else if js_lt bytes (1024 * 1024)%Q then
    TFixed (nmap2 Qdiv (to_num bytes) (Some 1024%Q)) 1 +++ TStr " KB"
  else TFixed (nmap2 Qdiv (to_num bytes) (Some (1024 * 1024)%Q)) 1 +++ TStr " MB".

(** The integer [n] whose [n / 10^d] [q.toFixed(d)] prints, for a
    nonnegative [q] that is exactly a double: the nearest, the larger one
    on a tie. *)
Definition toFixed_digits (q : Q) (d : nat) : Z :=
  Qfloor (q * inject_Z (10 ^ Z.of_nat d) + (1 # 2)).

(** [selectFile(filename)]: it has no try/catch. *)
Definition selectFile (filename : string) : M unit :=
  addConsoleMessage (TStr "Selecting file: " +++ TStr filename) "" ;;;
  resp <- fetch (POST "/api/select_file" (JObj [("filename", JStr filename)])) ;;
  result <- json resp ;;
  success <- prop result "success" ;;
  if truthy success then
    modify (set_selectedFile (Some filename)) ;;;
    showAlert (TStr "Selected: " +++ TStr filename) "success" ;;;
    addConsoleMessage (TStr "File selected: " +++ TStr filename) "success"
  else
    e <- prop result "error" ;;
    showAlert (TVal e) "error" ;;;
    e' <- prop result "error" ;;
    addConsoleMessage (TStr "Failed to select file: " +++ TVal e') "error".

(** [deleteFile(filename)]; [confirmed] is the answer to [confirm(...)]. *)
Definition deleteFile (confirmed : bool) (filename : string) : M unit :=
  if negb confirmed then ret tt else
  addConsoleMessage (TStr "Deleting file: " +++ TStr filename) "" ;;;
  resp <- fetch (POST "/api/delete_file" (JObj [("filename", JStr filename)])) ;;
  result <- json resp ;;
  success <- prop result "success" ;;
  if truthy success then
    updateFiles_start ;;;
    showAlert (TStr "File deleted") "success" ;;;
    addConsoleMessage (TStr "File deleted: " +++ TStr filename) "success"
  else
    e <- prop result "error" ;;
    showAlert (TVal e) "error" ;;;
    e' <- prop result "error" ;;
    addConsoleMessage (TStr "Failed to delete file: " +++ TVal e') "error".

(** [getRelayStatus()]: a response that is not ok falls out of the [try]
    to [return null]. *)
Definition getRelayStatus : M jsval :=
  try_catch
    (resp <- fetch (GET "/api/plugins/relay_controller/get_status") ;;
     if resp.(resp_ok) then json resp else ret JNull)
    (fun error => console_error (TStr "Error getting relay status: " +++ err_message error) ;;;
                  ret JNull).

(** The [keydown] listener: [event.key] is compared with ['1'] and ['4']
    in string order ([preventDefault] is not modelled). *)
Definition onKeydown (ctrlKey : bool) (key : string) : M unit :=
  if ctrlKey && String.leb "1" key && String.leb key "4"
  then toggleRelay ("relay_" ++ key) else ret tt.

(** Decimal digits of an array index, the key [Object.entries] gives it. *)
Fixpoint uint_digits (u : Decimal.uint) : string :=
  match u with
  | Decimal.Nil => ""
  | Decimal.D0 u' => String "0" (uint_digits u')
  | Decimal.D1 u' => String "1" (uint_digits u')
  | Decimal.D2 u' => String "2" (uint_digits u')
  | Decimal.D3 u' => String "3" (uint_digits u')
  | Decimal.D4 u' => String "4" (uint_digits u')
  | Decimal.D5 u' => String "5" (uint_digits u')
  | Decimal.D6 u' => String "6" (uint_digits u')
  | Decimal.D7 u' => String "7" (uint_digits u')
  | Decimal.D8 u' => String "8" (uint_digits u')
  | Decimal.D9 u' => String "9" (uint_digits u')
  end.

Definition index_key (n : nat) : string := uint_digits (Nat.to_uint n).

Fixpoint chars (s : string) : list jsval :=
  match s with
  | EmptyString => []
  | String c s' => JStr (String c EmptyString) :: chars s'
  end.

(** [Object.entries(v)]: [undefined] and [null] throw; an array gives its
    indices as keys, a string its characters; other primitives give none. *)
Definition object_entries (v : jsval) : M (list (string * jsval)) :=
  match v with
  | JUndefined | JNull => throw (type_error "Cannot convert undefined or null to object")
  | JObj fs => ret fs
  | JArr xs => ret (combine (map index_key (seq 0 (length xs))) xs)
  | JStr str => ret (combine (map index_key (seq 0 (String.length str))) (chars str))
  | _ => ret []
  end.

(** The loop [for (const [relayId, relayInfo] of Object.entries(data))]. *)
Fixpoint paint_relays (es : list (string * jsval)) : M unit :=
  match es with
  | [] => ret tt
  | (relayId, relayInfo) :: es' =>
      st <- prop relayInfo "state" ;;
      updateRelayButtonState relayId st ;;;
      paint_relays es'
  end.

Definition refreshRelayStates : M unit :=
  try_catch
    (resp <- fetch (GET "/api/plugins/relay_controller/get_status") ;;
     if negb resp.(resp_ok) then throw (http_error resp.(resp_status)) else
     data <- json resp ;;
     es <- object_entries data ;;
     paint_relays es)
    (fun error => console_error (TStr "Relay status refresh error: " +++ err_message error)).


(** [checkUSB()] after its fetch settled with [r].  The three
    [getElementById] calls do not throw; an assignment through a missing
    element does, which [update_el] models. *)
Definition checkUSB_resume (r : fetch_result) : M unit :=
  try_catch
    (resp <- settle r ;;
     status <- json resp ;;
     running <- prop status "service_running" ;;
     (if truthy running then
        update_el "usbService" (set_text (TStr "Running")) ;;;
        update_el "usbService" (set_classes ["usb-value"; "status-connected"])
      else
        update_el "usbService" (set_text (TStr "Stopped")) ;;;
        update_el "usbService" (set_classes ["usb-value"; "status-disconnected"])) ;;;
     mounted <- prop status "mounted" ;;
     (if truthy mounted then
        update_el "usbMount" (set_text (TStr "Mounted")) ;;;
        update_el "usbMount" (set_classes ["usb-value"; "status-connected"])
      else
        update_el "usbMount" (set_text (TStr "Not Mounted")) ;;;
        update_el "usbMount" (set_classes ["usb-value"; "status-disconnected"])) ;;;
     space <- prop status "usb_space" ;;
     free <- (if truthy space then prop space "free" else ret space) ;;
     if truthy free then
       space' <- prop status "usb_space" ;; free' <- prop space' "free" ;;
       let freeGB := nmap2 Qdiv (to_num free') (Some (1024 * 1024 * 1024)%Q) in
       update_el "usbSpace" (set_text (TFixed freeGB 1 +++ TStr " GB")) ;;;
       update_el "usbSpace" (set_classes ["usb-value"])
     else
       update_el "usbSpace" (set_text (TStr "Unknown")) ;;;
       update_el "usbSpace" (set_classes ["usb-value"]))
    (fun error => console_error (TStr "USB status error: " +++ err_message error)).

Definition checkUSB : M unit :=
  r <- issue (GET "/api/usb_status") ;; checkUSB_resume r.

(** [setupUpload()]: the handlers it installs are not modelled; assigning
    them through a missing element throws. *)
Definition setupUpload : M unit :=
  _ <- get_el "uploadArea" ;;
  _ <- get_el "fileInput" ;;
  ret tt.

(** An unawaited [async] call whose body starts with [await fetch(url)]
    inside its [try]: the request is issued now, the rest runs later. *)
Definition fetch_start (url : string) : M unit := _ <- issue (GET url) ;; ret tt.

(** The first [DOMContentLoaded] listener, up to [setInterval] (the timer
    is not modelled). *)
Definition onDOMContentLoaded : M unit :=
  setupUpload ;;;
  fetch_start "/api/status" ;;;                     (* updateStatus() *)
  updateFiles_start ;;;                             (* updateFiles() *)
  fetch_start "/api/usb_status" ;;;                 (* checkUSB() *)
  fetch_start "/api/config/ui/status_bar_items" ;;; (* loadPluginStatusItems() *)
  addConsoleMessage (TStr "System initialized with plugin support") "info" ;;;
  addConsoleMessage (TStr "Waiting for printer connection...") "".

(** *** Plugin status items *)

(** A status bar item is an object. *)
Definition item := list (string * jsval).

(** The sort key [a.priority || 100]. *)
Definition prio_key (it : item) : option Q :=
  to_num (js_or (assoc_get "priority" it) (JNum 100)).

(** [(a.priority || 100) - (b.priority || 100) <= 0]: [a] may stay before
    [b] (a NaN difference counts as 0). *)
Definition prio_le (a b : item) : bool :=
  match nmap2 Qminus (prio_key a) (prio_key b) with
  | Some d => Qle_bool d 0
  | None => true
  end.

Fixpoint insert_item (x : item) (l : list item) : list item :=
  match l with
  | [] => [x]
  | y :: l' => if prio_le y x then y :: insert_item x l' else x :: l
  end.

(** [items.sort(...)]: [Array.prototype.sort] is stable; for a consistent
    comparator its result is the one stable order, which insertion sort
    computes. *)
Definition sort_items (items : list item) : list item :=
  fold_left (fun acc x => insert_item x acc) items [].

(** [item.priority && item.priority < 50] *)
Definition in_main (it : item) : bool :=
  let p := assoc_get "priority" it in truthy p && js_lt p 50%Q.

(** [updatePluginStatusItems(items)]: the children given to
    [pluginStatusItems] and to [additionalStatusItems], in order, each
    child being built from its item by [createPluginStatusElement]. *)
Definition updatePluginStatusItems (items : list item) : M (list item * list item) :=
  _ <- get_el "pluginStatusItems" ;;
  _ <- get_el "additionalStatusItems" ;;
  let sorted := sort_items items in
  ret (filter in_main sorted, filter (fun it => negb (in_main it)) sorted).

(** The items whose [priority || 100] is a number. *)
Definition num_key (it : item) : Prop := prio_key it <> None.

Definition R_item (a b : item) : Prop := prio_le a b = true.

(** [m] keeps [P] true, whether it returns or throws. *)
Definition preserves (P : state -> Prop) {A} (m : M A) : Prop :=
  forall s, P s -> P (snd (m s)).

(** * Proofs *)

Open Scope nat_scope.

(** ** General facts about the embedding *)

Lemma resume_clears_toggling : forall rid r s,
  relayToggling (snd (toggleRelay_resume rid r s)) = false.
Proof.
  intros rid r s. unfold toggleRelay_resume, try_finally.
  destruct (try_catch _ _ s) as [res s']. reflexivity.
Qed.

Lemma console_push_spec : forall (line : txt * string) ls,
  length ls <= 50 ->
  length (console_push line ls) <= 50 /\
  console_push line ls = ((if Nat.eqb (length ls) 50 then tl ls else ls) ++ [line])%list.
Proof.
  intros line ls H. unfold console_push.
  destruct (Nat.ltb 50 (length (ls ++ [line]))) eqn:E.
  - apply Nat.ltb_lt in E. rewrite length_app in E. simpl in E.
    assert (L : length ls = 50) by lia. rewrite L. simpl.
    destruct ls as [|x ls']; [simpl in L; discriminate|].
    simpl in *. rewrite length_app. simpl. split; [lia | reflexivity].
  - apply Nat.ltb_ge in E. rewrite length_app in E. simpl in E.
    assert (L : Nat.eqb (length ls) 50 = false) by (apply Nat.eqb_neq; lia).
    rewrite L. split; [rewrite length_app; simpl; lia | reflexivity].
Qed.

Lemma relay_step_inv : forall w e,
  length (snd w) <= 1 /\ (relayToggling (fst w) = true <-> snd w <> []) ->
  let w' := relay_step w e in
  length (snd w') <= 1 /\ (relayToggling (fst w') = true <-> snd w' <> []).
Proof.
  intros [s p] e [Hlen Hiff]. simpl in Hlen, Hiff.
  destruct e as [rid | i r]; simpl.
  - unfold toggleRelay_start, bind, gets, modify, issue, ret. simpl.
    destruct (relayToggling s) eqn:T; simpl.
    + split; [exact Hlen | rewrite T; exact Hiff].
    + assert (p = []) as ->.
      { destruct p as [|x p']; [reflexivity|].
        exfalso. assert (false = true) as Hf by (apply Hiff; discriminate).
        discriminate. }
      simpl. split; [lia | split; intros _; [discriminate | reflexivity]].
  - destruct (nth_error p i) as [rid|] eqn:N; simpl.
    + rewrite resume_clears_toggling.
      destruct p as [|x [|y p']]; simpl in *.
      * destruct i; discriminate.
      * destruct i as [|i']; simpl; [|destruct i'; discriminate].
        split; [lia | split; intros H; [discriminate | contradiction]].
      * lia.
    + split; assumption.
Qed.

Lemma run_relay_inv : forall es w,
  length (snd w) <= 1 /\ (relayToggling (fst w) = true <-> snd w <> []) ->
  let w' := run_relay w es in
  length (snd w') <= 1 /\ (relayToggling (fst w') = true <-> snd w' <> []).
Proof.
  induction es as [|e es IH]; intros w H; simpl.
  - exact H.
  - apply IH. apply relay_step_inv. exact H.
Qed.

(** *** The class-name rewriting of [updateRelayButtonState] *)

Fixpoint no_space (p : string) : bool :=
  match p with
  | EmptyString => true
  | String c p' => negb (Ascii.eqb c " ") && no_space p'
  end.

Lemma prefix_length : forall p t,
  prefix p t = true -> String.length p <= String.length t.
Proof.
  induction p as [|a p IH]; intros [|b t] H; simpl in *; try lia; try discriminate.
  destruct (ascii_dec a b); [apply IH in H; lia | discriminate].
Qed.

(** A space-free pattern never matches across a space. *)
Lemma prefix_app_space : forall Y Z p,
  no_space p = true -> prefix p (Y ++ String " " Z) = prefix p Y.
Proof.
  induction Y as [|b Y IH]; intros Z [|a p] Hp; simpl; try reflexivity.
  - simpl in Hp. apply andb_prop in Hp as [Ha _].
    destruct (ascii_dec a " ") as [E|E]; [subst; discriminate | reflexivity].
  - simpl in Hp. apply andb_prop in Hp as [_ Hp].
    destruct (ascii_dec a b); [apply IH; exact Hp | reflexivity].
Qed.

Lemma strip_aux_app_space : forall Y Z k,
  k <= String.length Y ->
  strip_aux k (Y ++ String " " Z) = (strip_aux k Y ++ String " " (strip_aux 0 Z))%string.
Proof.
  induction Y as [|c Y IH]; intros Z k Hk.
  - simpl in Hk. assert (k = 0) as -> by lia. reflexivity.
  - destruct k as [|k].
    + change (String c Y ++ String " " Z)%string with (String c (Y ++ String " " Z)).
      cbn [strip_aux].
      change (String c (Y ++ String " " Z)) with (String c Y ++ String " " Z)%string.
      rewrite !prefix_app_space by reflexivity.
      destruct (prefix "relay-on" (String c Y)) eqn:E1.
      * apply prefix_length in E1. simpl in E1. apply IH. lia.
      * destruct (prefix "relay-off" (String c Y)) eqn:E2.
        -- apply prefix_length in E2. simpl in E2. apply IH. lia.
        -- simpl. rewrite IH by lia. reflexivity.
    + simpl in Hk. simpl. apply IH. lia.
Qed.

Lemma trim_end_app_ws : forall Y c,
  is_ws c = true -> trim_end (Y ++ String c "") = trim_end Y.
Proof.
  induction Y as [|a Y IH]; intros c Hc; simpl.
  - rewrite Hc. reflexivity.
  - rewrite IH by exact Hc. reflexivity.
Qed.

Lemma trim_app_ws : forall Y c,
  is_ws c = true -> trim (Y ++ String c "") = trim Y.
Proof.
  induction Y as [|a Y IH]; intros c Hc; unfold trim; simpl.
  - rewrite Hc. reflexivity.
  - destruct (is_ws a) eqn:Ea.
    + apply IH. exact Hc.
    + apply (trim_end_app_ws (String a Y)). exact Hc.
Qed.

(** Repainting a class name that is already stable under the rewriting. *)
Lemma strip_repaint : forall X (on : bool),
  strip_relay_classes X = X ->
  strip_relay_classes (X ++ " relay-" ++ (if on then "on" else "off"))%string = X.
Proof.
  intros X on HX. unfold strip_relay_classes, replace_relay.
  change (" relay-" ++ (if on then "on" else "off"))%string
    with (String " " ("relay-" ++ (if on then "on" else "off"))).
  rewrite strip_aux_app_space by lia.
  replace (strip_aux 0 ("relay-" ++ (if on then "on" else "off"))) with ""
    by (destruct on; reflexivity).
  rewrite trim_app_ws by reflexivity. exact HX.
Qed.

Lemma paint_button_twice : forall on on' b,
  strip_relay_classes (strip_relay_classes (rb_className b)) = strip_relay_classes (rb_className b) ->
  paint_button on (paint_button on' b) = paint_button on b.
Proof.
  intros on on' b H. unfold paint_button.
  cbn [rb_className rb_icon rb_background rb_borderColor].
  rewrite strip_repaint by exact H.
  destruct (rb_icon b); reflexivity.
Qed.

Lemma paint_button_stable : forall on b,
  strip_relay_classes (strip_relay_classes (rb_className b)) = strip_relay_classes (rb_className b) ->
  let b' := paint_button on b in
  strip_relay_classes (strip_relay_classes (rb_className b')) = strip_relay_classes (rb_className b').
Proof.
  intros on b H. unfold paint_button. cbn [rb_className].
  rewrite strip_repaint by exact H. exact H.
Qed.

Lemma rb_lookup_update : forall id f bs,
  rb_lookup id (rb_update id f bs) = option_map f (rb_lookup id bs).
Proof.
  induction bs as [|[k b] bs IH]; simpl; [reflexivity|].
  destruct (String.eqb id k) eqn:E; simpl; rewrite ?E; [reflexivity | exact IH].
Qed.

Lemma toggleRelay_success : forall s rid st d,
  relayToggling s = false ->
  net s (length (requests s)) = Response true st (Some (JObj d)) ->
  truthy (assoc_get "success" d) = true ->
  fst (toggleRelay rid s) = Ret tt /\
  relayButtons (snd (toggleRelay rid s))
    = rb_update rid (paint_button (truthy (assoc_get "state" d))) (relayButtons s) /\
  relayToggling (snd (toggleRelay rid s)) = false /\
  net (snd (toggleRelay rid s)) = net s /\
  length (requests (snd (toggleRelay rid s))) = S (length (requests s)).
Proof.
  intros s rid st d Hbusy Hnet Hsucc.
  unfold toggleRelay, toggleRelay_resume, try_finally, try_catch, bind, gets, modify,
    issue, settle, json, prop, ret, updateRelayButtonState, showAlert.
  rewrite Hbusy. cbn [fst snd set_relayToggling net requests]. rewrite Hnet.
  simpl. rewrite Hsucc. simpl.
  rewrite length_app. simpl. repeat split; lia.
Qed.

Lemma el_lookup_update : forall id f els,
  el_lookup id (el_update id f els) = option_map f (el_lookup id els).
Proof. intros id f els. unfold el_lookup, el_update. rewrite String.eqb_refl. reflexivity. Qed.

Lemma el_lookup_update_other : forall id id' f els,
  id <> id' -> el_lookup id (el_update id' f els) = el_lookup id els.
Proof.
  intros id id' f els Hne. unfold el_lookup, el_update.
  destruct (String.eqb id' id) eqn:E; [apply String.eqb_eq in E; congruence | reflexivity].
Qed.

Lemma set_requests_twice : forall a b s,
  set_requests a (set_requests b s) = set_requests a s.
Proof. intros a b []; reflexivity. Qed.

Lemma issue_all_answered : forall rs s,
  all_answered s ->
  exists xs, issue_all rs s = (Ret xs, set_requests (requests s ++ rs)%list s) /\
             forall s', promise_all xs s' = (Ret tt, s').
Proof.
  induction rs as [| r rs IH]; intros s Hs.
  - exists []. split; [| reflexivity].
    destruct s; cbn. rewrite app_nil_r. reflexivity.
  - destruct (Hs (length (requests s))) as (ok & st & b & Hn).
    destruct (IH (set_requests (requests s ++ [r])%list s)) as (xs & E & P).
    { exact Hs. }
    exists (Response ok st b :: xs). split.
    + cbn [issue_all]. unfold bind at 1, issue. rewrite Hn.
      unfold bind at 1. rewrite E. unfold ret.
      rewrite set_requests_twice. cbn [requests set_requests].
      rewrite <- app_assoc. reflexivity.
    + exact P.
Qed.

Lemma issue_all_spec : forall rs s,
  issue_all rs s
  = (Ret (map (fun i => net s (length (requests s) + i)) (seq 0 (length rs))),
     set_requests (requests s ++ rs)%list s).
Proof.
  induction rs as [| r rs IH]; intros s.
  - destruct s; cbn. rewrite app_nil_r. reflexivity.
  - cbn [issue_all]. unfold bind at 1, issue. unfold bind at 1. rewrite IH.
    unfold ret. rewrite set_requests_twice. cbn [requests net set_requests length seq map].
    rewrite <- app_assoc, <- seq_shift, map_map, Nat.add_0_r. cbn [app].
    f_equal. f_equal. f_equal. apply map_ext. intros i. rewrite length_app. cbn.
    f_equal. lia.
Qed.

(** The end of a run that settled into one toast. *)
Ltac one_toast_tail :=
  cbv beta iota;
  cbn [fst snd alerts set_relayToggling set_logged set_alerts set_requests
       set_consoleLines set_configData];
  split; [eexists; reflexivity | rewrite ?length_app; cbn [length]; lia].

(** *** Running the status code symbolically *)

Lemma bind_assoc_s : forall A B C (m : M A) (f : A -> M B) (k : B -> M C) s,
  bind (bind m f) k s = bind m (fun x => bind (f x) k) s.
Proof. intros. unfold bind. destruct (m s) as [[a | e] s']; reflexivity. Qed.

Lemma bind_prop_obj : forall B fs x (k : jsval -> M B) s,
  bind (prop (JObj fs) x) k s = k (assoc_get x fs) s.
Proof. reflexivity. Qed.

Lemma bind_gets : forall A B (f : state -> A) (k : A -> M B) s,
  bind (gets f) k s = k (f s) s.
Proof. reflexivity. Qed.

Lemma bind_modify : forall B f (k : unit -> M B) s,
  bind (modify f) k s = k tt (f s).
Proof. reflexivity. Qed.

Lemma bind_ret_l : forall A B (a : A) (k : A -> M B) s,
  bind (ret a) k s = k a s.
Proof. reflexivity. Qed.

Lemma bind_toFixed_num : forall B q (k : option Q -> M B) s,
  bind (toFixed (JNum q)) k s = k (Some q) s.
Proof. reflexivity. Qed.

Lemma bind_get_el : forall B id e (k : element -> M B) s,
  el_lookup id s.(elements) = Some e -> bind (get_el id) k s = k e s.
Proof. intros B id e k s H. unfold bind, get_el. rewrite H. reflexivity. Qed.

Lemma update_el_present : forall id f s,
  el_present id s.(elements) = true ->
  update_el id f s = (Ret tt, set_elements (el_update id f s.(elements)) s).
Proof.
  intros id f s H. unfold update_el, get_el, bind, el_present in *.
  destruct (el_lookup id (elements s)); [reflexivity | discriminate].
Qed.

Lemma bind_update_el : forall B id f (k : unit -> M B) s,
  el_present id s.(elements) = true ->
  bind (update_el id f) k s = k tt (set_elements (el_update id f s.(elements)) s).
Proof. intros B id f k s H. unfold bind at 1. rewrite update_el_present by exact H. reflexivity. Qed.

Lemma el_lookup_update_eqb : forall id id' f els,
  el_lookup id (el_update id' f els)
  = if String.eqb id' id then option_map f (el_lookup id els) else el_lookup id els.
Proof.
  intros id id' f els. destruct (String.eqb id' id) eqn:E.
  - apply String.eqb_eq in E. subst. apply el_lookup_update.
  - apply el_lookup_update_other. intros ->. rewrite String.eqb_refl in E. discriminate.
Qed.

Lemma el_present_update : forall id id' f els,
  el_present id (el_update id' f els) = el_present id els.
Proof.
  intros id id' f els. unfold el_present. rewrite el_lookup_update_eqb.
  destruct (String.eqb id' id); [destruct (el_lookup id els) |]; reflexivity.
Qed.

Lemma dom_ready_present : forall s id,
  dom_ready s = true -> existsb (String.eqb id) page_ids = true ->
  el_present id s.(elements) = true.
Proof.
  intros s id Hr Hin. unfold dom_ready in Hr. rewrite forallb_forall in Hr.
  apply existsb_exists in Hin. destruct Hin as [id' [Hin E]].
  apply String.eqb_eq in E. subst id'. exact (Hr id Hin).
Qed.

Lemma dom_ready_lookup : forall s id,
  dom_ready s = true -> existsb (String.eqb id) page_ids = true ->
  exists e, el_lookup id s.(elements) = Some e.
Proof.
  intros s id Hr Hin. pose proof (dom_ready_present s id Hr Hin) as H.
  unfold el_present in H. destruct (el_lookup id (elements s)) as [e |]; [eauto | discriminate].
Qed.

Lemma dom_ready_update : forall id f s,
  dom_ready (set_elements (el_update id f s.(elements)) s) = dom_ready s.
Proof.
  intros id f s. unfold dom_ready. destruct s; cbn [elements set_elements].
  generalize page_ids. intros l. induction l as [| x l IH]; cbn; [reflexivity |].
  rewrite el_present_update, IH. reflexivity.
Qed.

(** Element lookups through a chain of updates of other elements. *)
Ltac el_simpl :=
  cbn [elements set_elements set_printStartTime set_requests set_logged set_alerts
       set_consoleLines] in *;
  repeat rewrite el_present_update;
  cbn [el_lookup el_update String.eqb Ascii.eqb Bool.eqb option_map] in *.

Lemma els_ready_present : forall els id,
  forallb (fun id => el_present id els) page_ids = true ->
  existsb (String.eqb id) page_ids = true -> el_present id els = true.
Proof.
  intros els id Hr Hin. apply (dom_ready_present (set_elements els (init offline))); assumption.
Qed.

Ltac present_tac :=
  el_simpl;
  first [ apply dom_ready_present; [assumption | reflexivity]
        | apply els_ready_present; [assumption | reflexivity] ].

(** One step of a run whose state is known. *)
Ltac run_step :=
  first
    [ rewrite bind_assoc_s
    | rewrite bind_prop_obj
    | rewrite bind_gets
    | rewrite bind_modify
    | rewrite bind_ret_l
    | rewrite bind_toFixed_num
    | rewrite bind_update_el by present_tac
    | rewrite update_el_present by present_tac
    | match goal with
      | |- context [bind (if ?b then _ else _) _ _] => destruct b eqn:?
      | |- context [(if ?b then _ else _) _] => destruct b eqn:?
      end ].

Lemma preserves_bind : forall P A B (m : M A) (k : A -> M B),
  preserves P m -> (forall a, preserves P (k a)) -> preserves P (bind m k).
Proof.
  intros P A B m k Hm Hk s Hs. unfold bind.
  specialize (Hm s Hs). destruct (m s) as [[a | e] s']; [apply Hk |]; exact Hm.
Qed.

Lemma preserves_ret : forall P A (a : A), preserves P (ret a).
Proof. intros P A a s Hs. exact Hs. Qed.

Lemma preserves_throw : forall P A e, preserves P (@throw A e).
Proof. intros P A e s Hs. exact Hs. Qed.

Lemma preserves_gets : forall P A (f : state -> A), preserves P (gets f).
Proof. intros P A f s Hs. exact Hs. Qed.

Lemma preserves_get_el : forall P id, preserves P (get_el id).
Proof. intros P id s Hs. unfold get_el. destruct (el_lookup id (elements s)); exact Hs. Qed.

Lemma preserves_prop : forall P v k, preserves P (prop v k).
Proof. intros P v k s Hs. destruct v; exact Hs. Qed.

Lemma preserves_toFixed : forall P v, preserves P (toFixed v).
Proof. intros P v s Hs. destruct v; exact Hs. Qed.

Lemma preserves_modify : forall P f,
  (forall s, P s -> P (f s)) -> preserves P (modify f).
Proof. intros P f Hf s Hs. exact (Hf s Hs). Qed.

Lemma preserves_update_el : forall P id f,
  (forall s, P s -> P (set_elements (el_update id f s.(elements)) s)) ->
  preserves P (update_el id f).
Proof.
  intros P id f Hf. unfold update_el. apply preserves_bind.
  - apply preserves_get_el.
  - intros _. apply preserves_modify. exact Hf.
Qed.

Lemma preserves_issue : forall P r,
  (forall s, P s -> P (set_requests (requests s ++ [r])%list s)) -> preserves P (issue r).
Proof. intros P r Hf s Hs. exact (Hf s Hs). Qed.

Lemma preserves_run : forall P A (m : M A) s,
  preserves P m -> P s -> P (snd (m s)).
Proof. intros P A m s Hm Hs. exact (Hm s Hs). Qed.

Lemma try_catch_establishes : forall (P : state -> Prop) A (m : M A) h s,
  P (snd (m s)) -> (forall e, preserves P (h e)) -> P (snd (try_catch m h s)).
Proof.
  intros P A m h s Hm Hh. unfold try_catch.
  destruct (m s) as [[a | e] s']; [exact Hm | exact (Hh e s' Hm)].
Qed.

(** Structural part of a preservation proof; leaves the obligations of
    the updates and modifications. *)
Ltac preserves_tac :=
  repeat (cbv beta;
    match goal with
    | |- preserves _ (bind _ _) => apply preserves_bind; [| intros ?]
    | |- preserves _ (ret _) => apply preserves_ret
    | |- preserves _ (throw _) => apply preserves_throw
    | |- preserves _ (gets _) => apply preserves_gets
    | |- preserves _ (get_el _) => apply preserves_get_el
    | |- preserves _ (prop _ _) => apply preserves_prop
    | |- preserves _ (toFixed _) => apply preserves_toFixed
    | |- preserves _ (update_el _ _) => apply preserves_update_el
    | |- preserves _ (modify _) => apply preserves_modify
    | |- preserves _ (issue _) => apply preserves_issue
    | |- preserves _ (if ?b then _ else _) => destruct b
    | |- preserves _ (match ?x with _ => _ end) => destruct x
    end).

Lemma updateStatus_resume_response : forall ok code v s,
  snd (updateStatus_resume (Response ok code (Some v)) s)
  = snd (try_catch (status_apply v) (fun error => console_error (TStr "Status error: " +++ err_message error)) s).
Proof. reflexivity. Qed.

Lemma overlay_active_update_other : forall id f s,
  String.eqb id "printingOverlay" = false ->
  overlay_active (set_elements (el_update id f s.(elements)) s) = overlay_active s.
Proof.
  intros id f s H. unfold overlay_active. destruct s; cbn [elements set_elements].
  rewrite el_lookup_update_eqb, H. reflexivity.
Qed.

Lemma updatePrintingOverlay_overlay : forall status b,
  preserves (fun s => overlay_active s = b) (updatePrintingOverlay status).
Proof.
  intros status b. unfold updatePrintingOverlay. preserves_tac;
  intros s0 H0;
  first [ rewrite overlay_active_update_other by reflexivity; exact H0 | destruct s0; exact H0 ].
Qed.

Lemma has_class_add : forall c e, has_class c (class_add c e) = true.
Proof.
  intros c e. unfold class_add, has_class. destruct (existsb (String.eqb c) (el_classes e)) eqn:E.
  - exact E.
  - cbn [el_classes set_classes]. rewrite existsb_app. cbn. rewrite String.eqb_refl.
    apply orb_true_r.
Qed.

Lemma has_class_remove : forall c e, has_class c (class_remove c e) = false.
Proof.
  intros c e. unfold class_remove, has_class. cbn [el_classes set_classes].
  induction (el_classes e) as [| c' cs IH]; [reflexivity |].
  cbn. destruct (String.eqb c c') eqn:E; cbn; [exact IH | rewrite E; exact IH].
Qed.

Lemma js_streq_true : forall v lit, js_streq v lit = true -> v = JStr lit.
Proof.
  intros v lit H. destruct v; try discriminate. cbn in H. apply String.eqb_eq in H. subst. reflexivity.
Qed.

Ltac status_run Hps Hpst Hov :=
  repeat (cbv beta zeta;
          rewrite ?Hps, ?Hpst;
          cbn [js_streq String.eqb Ascii.eqb Bool.eqb negb andb orb];
          first [ erewrite (bind_get_el _ "printStatus") by (el_simpl; eassumption)
                | erewrite (bind_get_el _ "printingOverlay") by (el_simpl; eassumption)
                | run_step ]).

(** *** The status display after a payload *)

Ltac view_update_other :=
  intros ? H0; rewrite <- H0; unfold status_view, el_get, overlay_active, button_ids;
  cbn [map]; el_simpl; reflexivity.

Lemma updatePrintingOverlay_view : forall status v,
  preserves (fun s => status_view s = v) (updatePrintingOverlay status).
Proof.
  intros status v. unfold updatePrintingOverlay. preserves_tac; view_update_other.
Qed.

Lemma status_apply_ready : forall status,
  preserves (fun s => dom_ready s = true) (status_apply status).
Proof.
  intros status.
  unfold status_apply, showPrintingView, hidePrintingView, updateButtons, updatePrintingOverlay.
  preserves_tac; intros s0 H0;
  first [ rewrite dom_ready_update; exact H0 | destruct s0; exact H0 ].
Qed.

Lemma status_apply_selectedFile : forall status sel,
  preserves (fun s => selectedFile s = sel) (status_apply status).
Proof.
  intros status sel.
  unfold status_apply, showPrintingView, hidePrintingView, updateButtons, updatePrintingOverlay.
  preserves_tac; intros s0 H0; destruct s0; exact H0.
Qed.

Lemma set_elements_mk : forall v a b c d e f g h i j k l m,
  set_elements v (mk_state a b c d e f g h i j k l m) = mk_state a b c d e f v h i j k l m.
Proof. reflexivity. Qed.

Lemma set_printStartTime_mk : forall v a b c d e f g h i j k l m,
  set_printStartTime v (mk_state a b c d e f g h i j k l m) = mk_state a v c d e f g h i j k l m.
Proof. reflexivity. Qed.

Ltac status_run_all :=
  repeat (cbv beta zeta;
          rewrite ?set_elements_mk, ?set_printStartTime_mk;
          repeat match goal with
                 | H : assoc_get ?k ?l = _ |- context [assoc_get ?k ?l] => rewrite H
                 end;
          cbn [js_streq String.eqb Ascii.eqb Bool.eqb negb andb orb selectedFile
               elements printStartTime clock];
          first [ erewrite (bind_get_el _ "printStatus") by (el_simpl; eassumption)
                | erewrite (bind_get_el _ "printingOverlay") by (el_simpl; eassumption)
                | run_step ]).

(** Case split on every element the goal reads; a ready page has them all. *)
Ltac fill_els E Hr :=
  repeat match goal with
  | |- context [E ?id] =>
      let Ex := fresh "E" in
      destruct (E id) eqn:Ex;
      [| pose proof (els_ready_present E id Hr eq_refl) as Hx;
         unfold el_present, el_lookup in Hx; rewrite Ex in Hx; discriminate ]
  end.

Lemma status_apply_view : forall s status,
  dom_ready s = true -> status_ok status = true ->
  status_view (snd (status_apply status s)) = shown_status status (selectedFile s).
Proof.
  intros s status Hr Hok.
  destruct status as [| | | | | | | fs]; try discriminate.
  cbn [status_ok] in Hok.
  destruct (assoc_get "print_status" fs) as [| | | | | | | psf] eqn:Hps; try discriminate.
  destruct (assoc_get "progress_percent" psf) as [| | | q | | | |] eqn:Hpr;
    try (rewrite !andb_false_r in Hok; discriminate).
  destruct (assoc_get "z_position" fs) as [| | | z | | | |] eqn:Hz;
    try (rewrite !andb_false_r in Hok; discriminate).
  destruct (js_streq (assoc_get "state" psf) "IDLE") eqn:Hi;
  [| destruct (js_streq (assoc_get "state" psf) "PRINTING") eqn:Hp;
     [| destruct (js_streq (assoc_get "state" psf) "PAUSED") eqn:Hpa;
        [| discriminate ]]];
  match goal with H : js_streq _ _ = true |- _ => apply js_streq_true in H end.
  all: destruct (dom_ready_lookup s "printStatus" Hr eq_refl) as [e_ps Hpe].
  all: destruct (dom_ready_lookup s "printingOverlay" Hr eq_refl) as [e_ov Hov].
  all: destruct s as [sf pst cl tab cd rt els rbs clk nt rqs als lg].
  all: cbn [dom_ready elements selectedFile] in Hr, Hpe, Hov |- *.
  all: unfold status_apply, showPrintingView, hidePrintingView, updateButtons.
  all: status_run_all.
  all: rewrite (updatePrintingOverlay_view _ _ _ eq_refl).
  all: unfold status_view, el_get, overlay_active, button_ids, shown_status.
  all: cbn [map entries]; el_simpl.
  all: rewrite ?Hpe, ?Hov.
  all: fill_els els Hr.
  all: repeat match goal with
       | H : assoc_get ?k ?l = _ |- context [assoc_get ?k ?l] => rewrite H
       | H : truthy ?x = _ |- context [truthy ?x] => rewrite H
       | H : has_class ?c ?e = _ |- context [has_class ?c ?e] => rewrite H
       | |- context [entries (JObj ?l)] => cbn [entries]
       end.
  all: cbn [option_map el_text el_classes el_width el_disabled set_text set_classes
            set_width set_disabled js_streq String.eqb Ascii.eqb Bool.eqb negb andb orb to_num].
  all: rewrite ?has_class_add, ?has_class_remove.
  all: try reflexivity.
  all: unfold el_lookup in Hpe, Hov.
  all: repeat match goal with
       | H1 : ?E ?id = Some ?a, H2 : ?E ?id = Some ?b |- _ =>
           tryif constr_eq a b then fail
           else (rewrite H1 in H2; injection H2 as H2; subst b)
       end.
  all: repeat match goal with
       | H : has_class ?c ?e = _ |- context [has_class ?c ?e] => rewrite H
       end.
  all: reflexivity.
Qed.

(** *** Racing requests *)

Lemma printer_command_split : forall intro r s,
  printer_command intro r s
  = (addConsoleMessage intro "" ;;; rc <- issue r ;; printer_command_resume rc) s.
Proof. intros intro r s. reflexivity. Qed.

Lemma preserves_try_catch : forall P A (m : M A) h,
  preserves P m -> (forall e, preserves P (h e)) -> preserves P (try_catch m h).
Proof.
  intros P A m h Hm Hh s Hs. unfold try_catch.
  specialize (Hm s Hs). destruct (m s) as [[a | e] s']; [exact Hm | exact (Hh e s' Hm)].
Qed.

Lemma resume_preserves : forall (P : state -> Prop) r,
  (forall st, preserves P (status_apply st)) ->
  (forall s t, P s -> P (set_logged (logged s ++ [t])%list s)) ->
  preserves P (updateStatus_resume r).
Proof.
  intros P r Hst Hlog. unfold updateStatus_resume. apply preserves_try_catch.
  - unfold settle, json. preserves_tac. apply Hst.
  - intros e. unfold console_error. preserves_tac. intros s0. apply Hlog.
Qed.

Lemma resume_ready_file : forall r sel,
  preserves (fun s => dom_ready s = true /\ selectedFile s = sel) (updateStatus_resume r).
Proof.
  intros r sel. apply resume_preserves.
  - intros st s [H1 H2]. split.
    + exact (status_apply_ready st s H1).
    + exact (status_apply_selectedFile st sel s H2).
  - intros s t H. destruct s; exact H.
Qed.

Lemma resume_view : forall s ok c p,
  dom_ready s = true -> status_ok p = true ->
  status_view (snd (updateStatus_resume (Response ok c (Some p)) s))
  = shown_status p (selectedFile s).
Proof.
  intros s ok c p Hr Hok. rewrite updateStatus_resume_response.
  apply (try_catch_establishes (fun s' => status_view s' = shown_status p (selectedFile s))).
  - apply status_apply_view; assumption.
  - intros e. unfold console_error. preserves_tac. intros s0 H0. destruct s0; exact H0.
Qed.

Lemma command_resume_keeps_status : forall rc sel v,
  preserves (fun s => dom_ready s = true /\ selectedFile s = sel /\ status_view s = v)
    (printer_command_resume rc).
Proof.
  intros rc sel v.
  unfold printer_command_resume, settle, json, report_message, showAlert, addConsoleMessage.
  preserves_tac; intros s0 H0; destruct s0; exact H0.
Qed.

(** ** Claims *)

(** C10: with no file selected, [startPrint] issues no request and shows
    one 'No file selected' warning toast (and logs a console line); with a
    file selected it does exactly what [printFile] does on that file name.
    A selected file is a non-empty file name. *)
Theorem startPrint_guard : forall s,
  (selectedFile s = None ->
     fst (startPrint s) = Ret tt /\
     requests (snd (startPrint s)) = requests s /\
     alerts (snd (startPrint s)) = (alerts s ++ [(TStr "No file selected", "warning")])%list)
  /\ (forall f, selectedFile s = Some f -> f <> "" -> startPrint s = printFile f s).
Proof.
  intros s. split.
  - intros H. unfold startPrint, bind, gets. rewrite H. simpl.
    repeat split; reflexivity.
  - intros f H Hf. unfold startPrint, bind, gets. rewrite H. simpl.
    destruct (String.eqb f "") eqn:E.
    + apply String.eqb_eq in E. contradiction.
    + reflexivity.
Qed.

Lemma startPrint_guard_witness :
  fst (startPrint (init offline)) = Ret tt /\
  startPrint (set_selectedFile (Some "cube.ctb") (init offline))
  = printFile "cube.ctb" (set_selectedFile (Some "cube.ctb") (init offline)).
Proof.
  split.
  - exact (proj1 (proj1 (startPrint_guard (init offline)) eq_refl)).
  - apply (proj2 (startPrint_guard (set_selectedFile (Some "cube.ctb") (init offline))) "cube.ctb").
    + reflexivity.
    + discriminate.
Defined.

(** C8: [addConsoleMessage] keeps at most 50 console lines: from a buffer
    of at most 50 lines, one call appends the new line and, when the buffer
    held 50, drops the oldest; every sequence of calls interleaved with edits
    of the 'console_max_lines' setting keeps the bound, which does not
    depend on that setting. *)
Theorem console_never_exceeds_50 :
  (forall s m ty,
     length (consoleLines s) <= 50 ->
     let s' := snd (addConsoleMessage m ty s) in
     length (consoleLines s') <= 50 /\
     consoleLines s' =
       ((if Nat.eqb (length (consoleLines s)) 50 then tl (consoleLines s) else consoleLines s)
        ++ [(TStr "[" +++ TTime (clock s) +++ TStr "] " +++ m, ty)])%list)
  /\ (forall es s,
        length (consoleLines s) <= 50 ->
        length (consoleLines (snd (run_console es s))) <= 50).
Proof.
  split.
  - intros s m ty H. simpl. apply console_push_spec. exact H.
  - induction es as [|e es IH]; intros s H; simpl.
    + exact H.
    + destruct e as [m ty | v]; simpl; apply IH; simpl.
      * apply console_push_spec. exact H.
      * exact H.
Qed.

Lemma console_never_exceeds_50_witness :
  length (consoleLines (snd (addConsoleMessage (TStr "ready") "info" (init offline)))) <= 50 /\
  length (consoleLines (snd (run_console
     [Log (TStr "a") ""; SetMaxLines (JNum 10); Log (TStr "b") "info"] (init offline)))) <= 50.
Proof.
  split.
  - exact (proj1 (proj1 console_never_exceeds_50 (init offline) (TStr "ready") "info"
                    ltac:(simpl; lia))).
  - apply (proj2 console_never_exceeds_50). simpl. lia.
Defined.

(** C9: [toggleRelay] is guarded against re-entry: while [relayToggling]
    is set, a call changes nothing (no request, no button, no toast); the
    continuation of every toggle request clears the flag whatever the
    outcome (success, [success: false], HTTP error, network error); and on
    the event loop, from page load, at most one toggle request is ever in
    flight and the flag is set exactly while one is. *)
Theorem toggleRelay_reentrancy_guard :
  (forall s rid, relayToggling s = true -> toggleRelay rid s = (Ret tt, s)) /\
  (forall s rid r, relayToggling (snd (toggleRelay_resume rid r s)) = false) /\
  (forall netw es,
     let w := run_relay (init netw, []) es in
     length (snd w) <= 1 /\ (relayToggling (fst w) = true <-> snd w <> [])).
Proof.
  split; [|split].
  - intros s rid H. unfold toggleRelay, bind, gets. rewrite H. reflexivity.
  - intros s rid r. apply resume_clears_toggling.
  - intros netw es. apply run_relay_inv. simpl.
    split; [lia | split; intros H; [discriminate | contradiction]].
Qed.

Lemma toggleRelay_reentrancy_guard_witness :
  toggleRelay "relay_1" (set_relayToggling true (init offline))
  = (Ret tt, set_relayToggling true (init offline)).
Proof.
  exact (proj1 toggleRelay_reentrancy_guard (set_relayToggling true (init offline)) "relay_1"
           eq_refl).
Defined.

(** C3: toggling a relay twice restores its button.  The button starts
    rendered for state [on] (as [updateRelayButtonState] renders it); the
    server answers the first toggle with [!on] and the second with [on].
    Afterwards the button is the very same: class name (hence its
    relay-on / relay-off class), icon colour, background and border.  The
    class name is assumed stable under the removal of "relay-on" and
    "relay-off" (removing them does not create a new occurrence), as for
    "relay-toolbar-btn relay-off". *)
Theorem toggle_twice_restores : forall s rid b0 on st1 st2 d1 d2,
  relayToggling s = false ->
  rb_lookup rid (relayButtons s) = Some (paint_button on b0) ->
  strip_relay_classes (strip_relay_classes (rb_className b0))
    = strip_relay_classes (rb_className b0) ->
  net s (length (requests s)) = Response true st1 (Some (JObj d1)) ->
  net s (S (length (requests s))) = Response true st2 (Some (JObj d2)) ->
  truthy (assoc_get "success" d1) = true -> assoc_get "state" d1 = JBool (negb on) ->
  truthy (assoc_get "success" d2) = true -> assoc_get "state" d2 = JBool on ->
  rb_lookup rid (relayButtons (snd ((toggleRelay rid ;;; toggleRelay rid) s)))
    = Some (paint_button on b0).
Proof.
  intros s rid b0 on st1 st2 d1 d2 Hbusy Hb Hstable Hn1 Hn2 Hs1 Hst1 Hs2 Hst2.
  destruct (toggleRelay_success s rid st1 d1 Hbusy Hn1 Hs1) as [R1 [B1 [T1 [N1 L1]]]].
  unfold bind at 1.
  destruct (toggleRelay rid s) as [r1 s1] eqn:E1. simpl in R1, B1, T1, N1, L1. subst r1.
  assert (Hn2' : net s1 (length (requests s1)) = Response true st2 (Some (JObj d2)))
    by (rewrite N1, L1; exact Hn2).
  destruct (toggleRelay_success s1 rid st2 d2 T1 Hn2' Hs2) as [_ [B2 _]].
  rewrite B2, B1, !rb_lookup_update, Hb. simpl.
  rewrite Hst1, Hst2. simpl. destruct on; simpl;
  rewrite paint_button_twice by (apply paint_button_stable; exact Hstable);
  rewrite paint_button_twice by exact Hstable; reflexivity.
Qed.

Lemma toggle_twice_restores_witness :
  let s := set_relayButtons [("relay_1", paint_button false relay_btn_off)]
             (init (fun n => relay_ok (Nat.eqb n 0))) in
  rb_lookup "relay_1" (relayButtons (snd ((toggleRelay "relay_1" ;;; toggleRelay "relay_1") s)))
    = Some (paint_button false relay_btn_off).
Proof.
  intros s.
  apply (toggle_twice_restores s "relay_1" relay_btn_off false 200 200
           [("success", JBool true); ("state", JBool true); ("message", JStr "Relay toggled")]
           [("success", JBool true); ("state", JBool false); ("message", JStr "Relay toggled")]);
  vm_compute; reflexivity.
Defined.

(** C2 (counterexample): an edit followed by Cancel is not discarded.
    [configData] still holds it, and a later Save posts it. *)
Lemma cancel_keeps_edits_counterexample :
  let s := snd ((updateConfigValue "interface" "theme" (JStr "light") ;;; closeConfigModal)
                  (init (fun _ => reply (JObj [("success", JBool true)])))) in
  configData s = [("interface", JObj [("theme", JStr "light")])] /\
  requests (snd (saveConfig s))
    = [POST "/api/config/app"
         (JObj [("section", JStr "interface"); ("key", JStr "theme"); ("value", JStr "light")])].
Proof. vm_compute. split; reflexivity. Qed.

(** C2 (amended): Cancel ([closeConfigModal]) only hides the modal and
    leaves the pending edits in [configData]; Reset leaves them when the
    user declines the confirmation, and empties [configData] only when
    the reset request answers with a truthy [success]. *)
Theorem cancel_keeps_reset_clears : forall s,
  configData (snd (closeConfigModal s)) = configData s /\
  configData (snd (resetConfig false s)) = configData s /\
  configData (snd (resetConfig true s))
    = (if reset_succeeded s then [] else configData s).
Proof.
  intros s. split; [| split].
  - unfold closeConfigModal, update_el, get_el, bind, modify.
    destruct (el_lookup "configModal" (elements s)); reflexivity.
  - reflexivity.
  - unfold resetConfig, reset_succeeded, try_catch, fetch, bind, issue, settle, json,
      prop, ret, throw, gets, modify, showAlert, loadConfigTab_start.
    cbn [negb].
    destruct (net s (length (requests s))) as [e | ok st [v |]]; try reflexivity.
    destruct v as [| | | | | | | fs]; try reflexivity.
    simpl. destruct (truthy (assoc_get "success" fs)); reflexivity.
Qed.

(** C6: [saveConfig] flushes the pending edits.  When every request gets
    an HTTP answer and the modal is in the page, it issues exactly one
    POST to /api/config/app per (section, key, value) entry outside
    [plugins], then one POST to /api/config/plugins/<name> per plugin
    entry, and afterwards [configData] is empty and the modal has no
    'active' class; the call returns normally. *)
Theorem saveConfig_flushes : forall s m,
  all_answered s ->
  el_lookup "configModal" (elements s) = Some m ->
  fst (saveConfig s) = Ret tt /\
  requests (snd (saveConfig s))
    = (requests s ++ app_config_requests (configData s)
                  ++ plugin_config_requests (configData s))%list /\
  configData (snd (saveConfig s)) = [] /\
  el_lookup "configModal" (elements (snd (saveConfig s)))
    = Some (class_remove "active" m).
Proof.
  intros s m Hs Hm.
  destruct (issue_all_answered
              (app_config_requests (configData s) ++ plugin_config_requests (configData s))%list
              s Hs) as (xs & E & P).
  set (rs := (app_config_requests (configData s) ++ plugin_config_requests (configData s))%list)
    in *.
  set (s1 := set_configData []
               (set_alerts (alerts (set_requests (requests s ++ rs)%list s)
                            ++ [(TStr "Configuration saved successfully", "success")])%list
                  (set_requests (requests s ++ rs)%list s))).
  assert (Hsv : saveConfig s
                = (Ret tt, set_elements (el_update "configModal" (class_remove "active")
                                           (elements s1)) s1)).
  { unfold saveConfig, try_catch, gets, showAlert, modify, closeConfigModal, update_el,
      get_el, bind.
    fold rs. rewrite E. cbv beta iota. rewrite P. cbv beta iota.
    fold s1. replace (elements s1) with (elements s) by (destruct s; reflexivity).
    rewrite Hm. reflexivity. }
  rewrite Hsv. cbn [fst snd].
  destruct s; cbn in Hm |- *. repeat split.
  unfold el_lookup, el_update in *. cbn in *. rewrite Hm. reflexivity.
Qed.

Lemma saveConfig_flushes_witness :
  let s := snd ((updateConfigValue "interface" "theme" (JStr "light") ;;;
                 updateConfigValue "printer" "port" (JStr "/dev/ttyUSB0"))
                  (init (fun _ => reply (JObj [("success", JBool true)])))) in
  fst (saveConfig s) = Ret tt /\
  requests (snd (saveConfig s))
    = (requests s ++ app_config_requests (configData s)
                  ++ plugin_config_requests (configData s))%list /\
  configData (snd (saveConfig s)) = [] /\
  el_lookup "configModal" (elements (snd (saveConfig s)))
    = Some (class_remove "active" blank).
Proof.
  intros s.
  apply (saveConfig_flushes s blank).
  - intros i. exists true, 200%Z, (Some (JObj [("success", JBool true)])). reflexivity.
  - vm_compute. reflexivity.
Defined.

(** C1 (counterexample): with the network down, [connectPrinter] lets the
    fetch's TypeError escape and shows no toast at all, and [uploadFiles]
    shows two toasts ("Uploading..." and the error). *)
Lemma failed_fetch_toasts_counterexample :
  fst (connectPrinter (init offline)) = Throw (type_error "Failed to fetch") /\
  alerts (snd (connectPrinter (init offline))) = [] /\
  fst (uploadFiles ["cube.ctb"] (init offline)) = Ret tt /\
  alerts (snd (uploadFiles ["cube.ctb"] (init offline)))
    = [(TStr "Uploading...", "warning");
       (TStr "Upload error: " +++ TStr "Failed to fetch", "error")].
Proof. vm_compute. repeat split. Qed.

(** C1 (amended): when every fetch fails at the transport level, the
    operations wrapped in try/catch (an idle relay toggle, enabling or
    disabling and reloading a plugin, saving a non-empty set of edits,
    a confirmed reset and a confirmed cleanup) return normally with
    exactly one toast; a file upload returns normally with two. *)
Theorem failed_fetch_one_toast : forall s rid name en files,
  all_failed s ->
  relayToggling s = false ->
  (app_config_requests (configData s) ++ plugin_config_requests (configData s))%list <> [] ->
  one_toast (toggleRelay rid) s /\
  one_toast (togglePlugin name en) s /\
  one_toast (reloadPlugin name) s /\
  one_toast saveConfig s /\
  one_toast (resetConfig true) s /\
  one_toast (cleanupFiles true) s /\
  fst (uploadFiles files s) = Ret tt /\
  length (alerts (snd (uploadFiles files s))) = S (S (length (alerts s))).
Proof.
  intros s rid name en files Hf Hbusy Hrs.
  destruct (Hf (length (requests s))) as [e He].
  unfold one_toast.
  split; [| split; [| split; [| split; [| split; [| split]]]]].
  - unfold toggleRelay, toggleRelay_resume, try_finally, try_catch, bind, gets,
      issue, settle, throw, ret, console_error, showAlert; unfold modify.
    rewrite Hbusy. cbn [net set_relayToggling requests]. rewrite He. one_toast_tail.
  - unfold togglePlugin, try_catch, fetch, bind, issue, settle, throw, showAlert; unfold modify.
    rewrite He. one_toast_tail.
  - unfold reloadPlugin, try_catch, fetch, bind, issue, settle, throw, showAlert; unfold modify.
    rewrite He. one_toast_tail.
  - unfold saveConfig, try_catch, gets, bind. cbv beta iota.
    rewrite issue_all_spec. cbv beta iota.
    destruct (app_config_requests (configData s) ++ plugin_config_requests (configData s))%list
      as [| r rs]; [congruence |].
    cbn [length seq map]. rewrite Nat.add_0_r, He. cbn [promise_all].
    unfold throw, showAlert, modify. one_toast_tail.
  - unfold resetConfig, try_catch, fetch, bind, issue, settle, throw, showAlert; unfold modify.
    cbn [negb]. rewrite He. one_toast_tail.
  - unfold cleanupFiles, try_catch, fetch, bind, issue, settle, throw, showAlert,
      addConsoleMessage; unfold modify.
    cbn [negb]. cbv beta iota. cbn [net requests set_consoleLines]. rewrite He. one_toast_tail.
  - unfold uploadFiles, try_catch, fetch, bind, issue, settle, throw, showAlert,
      addConsoleMessage; unfold modify.
    cbv beta iota. cbn [net requests set_consoleLines set_alerts]. rewrite He.
    cbv beta iota.
    cbn [fst snd alerts set_logged set_alerts set_requests set_consoleLines].
    split; [reflexivity | rewrite !length_app; cbn [length]; lia].
Qed.

Lemma failed_fetch_one_toast_witness :
  let s := set_configData [("interface", JObj [("theme", JStr "light")])] (init offline) in
  one_toast (toggleRelay "relay_1") s /\
  one_toast (togglePlugin "relay_controller" true) s /\
  one_toast (reloadPlugin "relay_controller") s /\
  one_toast saveConfig s /\
  one_toast (resetConfig true) s /\
  one_toast (cleanupFiles true) s /\
  fst (uploadFiles ["cube.ctb"] s) = Ret tt /\
  length (alerts (snd (uploadFiles ["cube.ctb"] s))) = S (S (length (alerts s))).
Proof.
  intros s.
  apply (failed_fetch_one_toast s "relay_1" "relay_controller" true ["cube.ctb"]).
  - intros i. eexists. reflexivity.
  - reflexivity.
  - vm_compute. discriminate.
Defined.

(** C5 (counterexample): [setRelayState] answered with
    [{success: false, message: "Relay busy"}] shows no toast; the message
    only goes to the console log. *)
Lemma app_failure_toast_counterexample :
  let s := init (fun _ => reply (JObj [("success", JBool false); ("message", JStr "Relay busy")])) in
  fst (setRelayState "relay_1" true s) = Ret false /\
  alerts (snd (setRelayState "relay_1" true s)) = [] /\
  logged (snd (setRelayState "relay_1" true s))
    = [TStr "Failed to set relay state: " +++ TVal (JStr "Relay busy")].
Proof. vm_compute. repeat split. Qed.

(** C5 (amended): on an answer whose [success] is falsy, the plugin
    actions toast the server's [error] field, the printer commands its
    [message] field, [connectPrinter] its [message] or else its [error],
    an idle relay toggle its [message] or else "Failed to toggle relay";
    [setRelayState] shows no toast and returns false, and a confirmed
    reset shows the fixed text "Failed to reset configuration". *)
Theorem app_failure_toast : forall s st fs name en intro r rid on,
  net s (length (requests s)) = Response true st (Some (JObj fs)) ->
  truthy (assoc_get "success" fs) = false ->
  relayToggling s = false ->
  alerts (snd (togglePlugin name en s))
    = (alerts s ++ [(TVal (assoc_get "error" fs), "error")])%list /\
  alerts (snd (reloadPlugin name s))
    = (alerts s ++ [(TVal (assoc_get "error" fs), "error")])%list /\
  alerts (snd (printer_command intro r s))
    = (alerts s ++ [(TVal (assoc_get "message" fs), "error")])%list /\
  alerts (snd (connectPrinter s))
    = (alerts s ++ [(TVal (js_or (assoc_get "message" fs) (assoc_get "error" fs)), "error")])%list /\
  alerts (snd (toggleRelay rid s))
    = (alerts s ++ [(TVal (js_or (assoc_get "message" fs) (JStr "Failed to toggle relay")),
                     "error")])%list /\
  setRelayState rid on s
    = (Ret false, snd (setRelayState rid on s)) /\
  alerts (snd (setRelayState rid on s)) = alerts s /\
  alerts (snd (resetConfig true s))
    = (alerts s ++ [(TStr "Failed to reset configuration", "error")])%list.
Proof.
  intros s st fs name en intro r rid on Hn Hs Hbusy.
  split; [| split; [| split; [| split; [| split; [| split; [| split]]]]]].
  - unfold togglePlugin, try_catch, fetch, bind, issue, settle, json, prop, ret, showAlert;
      unfold modify.
    rewrite Hn. cbv beta iota. cbn [resp_body]. rewrite Hs. reflexivity.
  - unfold reloadPlugin, try_catch, fetch, bind, issue, settle, json, prop, ret, showAlert;
      unfold modify.
    rewrite Hn. cbv beta iota. cbn [resp_body]. rewrite Hs. reflexivity.
  - unfold printer_command, report_message, fetch, bind, issue, settle, json, prop, ret,
      showAlert, addConsoleMessage; unfold modify.
    cbv beta iota. cbn [net requests set_consoleLines]. rewrite Hn.
    cbv beta iota. cbn [resp_body]. rewrite Hs. reflexivity.
  - unfold connectPrinter, fetch, bind, issue, settle, json, prop, ret,
      showAlert, addConsoleMessage; unfold modify.
    cbv beta iota. cbn [net requests set_consoleLines]. rewrite Hn.
    cbv beta iota. cbn [resp_body]. rewrite Hs. reflexivity.
  - unfold toggleRelay, toggleRelay_resume, try_finally, try_catch, bind, gets,
      issue, settle, json, prop, throw, ret, showAlert; unfold modify.
    rewrite Hbusy. cbn [net set_relayToggling requests]. rewrite Hn.
    cbv beta iota. cbn [negb resp_ok resp_body]. rewrite Hs. reflexivity.
  - unfold setRelayState, try_catch, fetch, bind, issue, settle, json, prop, ret,
      console_error; unfold modify.
    rewrite Hn. cbv beta iota. cbn [negb resp_ok resp_body]. rewrite Hs. reflexivity.
  - unfold setRelayState, try_catch, fetch, bind, issue, settle, json, prop, ret,
      console_error; unfold modify.
    rewrite Hn. cbv beta iota. cbn [negb resp_ok resp_body]. rewrite Hs. reflexivity.
  - unfold resetConfig, try_catch, fetch, bind, issue, settle, json, prop, ret, showAlert;
      unfold modify.
    cbn [negb]. rewrite Hn. cbv beta iota. cbn [resp_body]. rewrite Hs. reflexivity.
Qed.

Lemma app_failure_toast_witness :
  let s := init (fun _ => reply (JObj [("success", JBool false); ("message", JStr "Relay busy");
                                       ("error", JStr "Plugin not found")])) in
  let fs := [("success", JBool false); ("message", JStr "Relay busy");
             ("error", JStr "Plugin not found")] in
  alerts (snd (togglePlugin "relay_controller" true s))
    = (alerts s ++ [(TVal (assoc_get "error" fs), "error")])%list /\
  alerts (snd (reloadPlugin "relay_controller" s))
    = (alerts s ++ [(TVal (assoc_get "error" fs), "error")])%list /\
  alerts (snd (pausePrint s))
    = (alerts s ++ [(TVal (assoc_get "message" fs), "error")])%list /\
  alerts (snd (connectPrinter s))
    = (alerts s ++ [(TVal (js_or (assoc_get "message" fs) (assoc_get "error" fs)), "error")])%list /\
  alerts (snd (toggleRelay "relay_1" s))
    = (alerts s ++ [(TVal (js_or (assoc_get "message" fs) (JStr "Failed to toggle relay")),
                     "error")])%list /\
  setRelayState "relay_1" true s
    = (Ret false, snd (setRelayState "relay_1" true s)) /\
  alerts (snd (setRelayState "relay_1" true s)) = alerts s /\
  alerts (snd (resetConfig true s))
    = (alerts s ++ [(TStr "Failed to reset configuration", "error")])%list.
Proof.
  intros s fs.
  apply (app_failure_toast s 200 fs "relay_controller" true (TStr "Pausing print...")
           (POST "/api/pause" JUndefined) "relay_1" true); reflexivity.
Defined.

(** C4: a status payload whose [print_status.state] is "PRINTING" leaves
    the printing overlay shown, one whose state is "IDLE" leaves it
    hidden, whatever the rest of the payload holds (a later failure is
    caught by [updateStatus] and does not undo the overlay update).  The
    page is assumed to hold the status elements. *)
Theorem overlay_follows_state : forall s ok code fs psf,
  dom_ready s = true ->
  net s (length (requests s)) = Response ok code (Some (JObj fs)) ->
  assoc_get "print_status" fs = JObj psf ->
  (js_streq (assoc_get "state" psf) "PRINTING" = true ->
   overlay_active (snd (updateStatus s)) = true) /\
  (js_streq (assoc_get "state" psf) "IDLE" = true ->
   overlay_active (snd (updateStatus s)) = false).
Proof.
  intros s ok code fs psf Hr Hn Hps.
  destruct (dom_ready_lookup s "printStatus" Hr eq_refl) as [e_ps Hpe].
  destruct (dom_ready_lookup s "printingOverlay" Hr eq_refl) as [e_ov Hov].
  set (s1 := set_requests (requests s ++ [GET "/api/status"])%list s).
  assert (Hu : snd (updateStatus s)
               = snd (try_catch (status_apply (JObj fs))
                        (fun error => console_error (TStr "Status error: " +++ err_message error))
                        s1)).
  { unfold updateStatus, bind at 1, issue. rewrite Hn. apply updateStatus_resume_response. }
  rewrite Hu. clear Hu.
  assert (Hr1 : dom_ready s1 = true) by (destruct s; exact Hr).
  assert (Hpe1 : el_lookup "printStatus" (elements s1) = Some e_ps) by (destruct s; exact Hpe).
  assert (Hov1 : el_lookup "printingOverlay" (elements s1) = Some e_ov) by (destruct s; exact Hov).
  clearbody s1. clear Hr Hpe Hov.
  split; intros Hst; apply js_streq_true in Hst;
  (apply try_catch_establishes;
   [| intros err; unfold console_error; preserves_tac; intros s0 H0; destruct s0; exact H0]);
  unfold status_apply, showPrintingView, hidePrintingView;
  status_run Hps Hst Hov1;
  (match goal with
   | |- overlay_active _ = ?b => apply (preserves_run (fun s => overlay_active s = b))
   end;
   [ preserves_tac;
     try (unfold updateButtons; preserves_tac);
     try apply updatePrintingOverlay_overlay;
     intros s0 H0; rewrite overlay_active_update_other by reflexivity; exact H0
   | unfold overlay_active; el_simpl; unfold el_lookup in *; rewrite Hov1; cbn [option_map];
     first [ apply has_class_add | apply has_class_remove | assumption ] ]).
Qed.

Lemma overlay_follows_state_witness :
  let ps (st : string) := [("state", JStr st); ("progress_percent", JNum 42)] in
  let payload (st : string) :=
    [("connected", JBool true); ("print_status", JObj (ps st)); ("z_position", JNum 3)] in
  overlay_active (snd (updateStatus (init (fun _ => reply (JObj (payload "PRINTING")))))) = true /\
  overlay_active (snd (updateStatus (init (fun _ => reply (JObj (payload "IDLE")))))) = false.
Proof.
  intros ps payload. split.
  - apply (proj1 (overlay_follows_state (init (fun _ => reply (JObj (payload "PRINTING"))))
                    true 200 (payload "PRINTING") (ps "PRINTING")
                    ltac:(vm_compute; reflexivity) eq_refl eq_refl)).
    vm_compute. reflexivity.
  - apply (proj2 (overlay_follows_state (init (fun _ => reply (JObj (payload "IDLE"))))
                    true 200 (payload "IDLE") (ps "IDLE")
                    ltac:(vm_compute; reflexivity) eq_refl eq_refl)).
    vm_compute. reflexivity.
Defined.

(** C7: racing responses are all applied, the last to arrive wins.  Two
    polls in flight, whose responses come back in either order, leave the
    status display (connection, state, progress, Z position, buttons,
    overlay) showing the payload of the response that arrived LAST, also
    when that is the older, superseded poll; a printer command racing a
    poll leaves the poll's payload shown in either order, since the
    command's continuation writes none of these elements.  There is no
    cancellation and no sequencing token.  The payloads are well formed
    (a known print state, numeric progress and Z position) and the page
    holds the status elements. *)
Theorem racing_responses_last_write_wins :
  (forall s ok1 c1 p1 ok2 c2 p2 first_back,
     dom_ready s = true -> status_ok p1 = true -> status_ok p2 = true ->
     net s (length (requests s)) = Response ok1 c1 (Some p1) ->
     net s (S (length (requests s))) = Response ok2 c2 (Some p2) ->
     status_view (snd (two_polls first_back s))
     = shown_status (if first_back then p2 else p1) (selectedFile s))
  /\ (forall s ok c p intro r poll_back_first,
     dom_ready s = true -> status_ok p = true ->
     net s (length (requests s)) = Response ok c (Some p) ->
     status_view (snd (poll_and_command intro r poll_back_first s))
     = shown_status p (selectedFile s)).
Proof.
  split.
  - intros s ok1 c1 p1 ok2 c2 p2 first_back Hr Hok1 Hok2 Hn1 Hn2.
    set (s1 := set_requests (requests s ++ [GET "/api/status"])%list s).
    set (s2 := set_requests (requests s1 ++ [GET "/api/status"])%list s1).
    assert (Hs2 : two_polls first_back s
                  = (if first_back
                     then run_tasks (updateStatus_resume (Response ok1 c1 (Some p1)))
                                    (updateStatus_resume (Response ok2 c2 (Some p2)))
                     else run_tasks (updateStatus_resume (Response ok2 c2 (Some p2)))
                                    (updateStatus_resume (Response ok1 c1 (Some p1)))) s2).
    { unfold two_polls, bind, issue. cbn [net requests set_requests].
      rewrite length_app, Nat.add_comm, Hn1. cbn. rewrite Hn2.
      reflexivity. }
    assert (Hr2 : dom_ready s2 = true /\ selectedFile s2 = selectedFile s)
      by (destruct s; split; [exact Hr | reflexivity]).
    rewrite Hs2. clear Hs2. clearbody s2.
    destruct first_back; unfold run_tasks;
    match goal with
    | |- status_view (snd (updateStatus_resume (Response ?ok ?c (Some ?p))
                            (snd (updateStatus_resume ?r0 s2)))) = _ =>
        destruct (resume_ready_file r0 (selectedFile s) s2 Hr2) as [Hr3 Hf3];
        rewrite resume_view by assumption; rewrite Hf3; reflexivity
    end.
  - intros s ok c p intro r poll_back_first Hr Hok Hn.
    set (s1 := snd (addConsoleMessage intro ""
                      (set_requests (requests s ++ [GET "/api/status"])%list s))).
    set (rc := net s1 (length (requests s1))).
    set (s2 := set_requests (requests s1 ++ [r])%list s1).
    assert (Hs : poll_and_command intro r poll_back_first s
                 = (if poll_back_first
                    then run_tasks (updateStatus_resume (Response ok c (Some p)))
                                   (printer_command_resume rc)
                    else run_tasks (printer_command_resume rc)
                                   (updateStatus_resume (Response ok c (Some p)))) s2).
    { unfold poll_and_command, bind at 1, issue at 1. rewrite Hn. reflexivity. }
    assert (Hr2 : dom_ready s2 = true /\ selectedFile s2 = selectedFile s)
      by (destruct s; split; [exact Hr | reflexivity]).
    rewrite Hs. clear Hs. clearbody s2 rc. destruct Hr2 as [Hr2 Hf2].
    destruct poll_back_first; unfold run_tasks.
    + rewrite <- Hf2.
      apply (command_resume_keeps_status rc (selectedFile s2)
               (shown_status p (selectedFile s2))).
      destruct (resume_ready_file (Response ok c (Some p)) (selectedFile s2) s2
                  (conj Hr2 eq_refl)) as [Hr3 Hf3].
      split; [exact Hr3 | split; [exact Hf3 | apply resume_view; assumption]].
    + destruct (command_resume_keeps_status rc (selectedFile s2) (status_view s2) s2
                  (conj Hr2 (conj eq_refl eq_refl))) as [Hr3 [Hf3 _]].
      rewrite resume_view by assumption. rewrite Hf3, Hf2. reflexivity.
Qed.

Lemma racing_responses_last_write_wins_witness :
  let payload (st : string) (pct : Q) :=
    JObj [("connected", JBool true);
          ("print_status", JObj [("state", JStr st); ("progress_percent", JNum pct)]);
          ("z_position", JNum 3)] in
  let s := init (fun n => if Nat.eqb n 0 then reply (payload "PRINTING" 10%Q)
                          else reply (payload "PAUSED" 20%Q)) in
  status_view (snd (two_polls true s)) = shown_status (payload "PAUSED" 20%Q) (selectedFile s) /\
  status_view (snd (two_polls false s)) = shown_status (payload "PRINTING" 10%Q) (selectedFile s) /\
  status_view (snd (poll_and_command (TStr "Pausing print...") (POST "/api/pause" JUndefined)
                      false s))
  = shown_status (payload "PRINTING" 10%Q) (selectedFile s).
Proof.
  intros payload s. split; [| split].
  - apply (proj1 racing_responses_last_write_wins s true 200%Z (payload "PRINTING" 10%Q)
             true 200%Z (payload "PAUSED" 20%Q) true);
      vm_compute; reflexivity.
  - apply (proj1 racing_responses_last_write_wins s true 200%Z (payload "PRINTING" 10%Q)
             true 200%Z (payload "PAUSED" 20%Q) false);
      vm_compute; reflexivity.
  - apply (proj2 racing_responses_last_write_wins s true 200%Z (payload "PRINTING" 10%Q));
      vm_compute; reflexivity.
Defined.


(** ** Further properties of the page *)

Lemma toFixed_digits_kb : forall b : Z,
  toFixed_digits (inject_Z b / 1024)%Q 1 = ((b * 20 + 1024) / 2048)%Z.
Proof. intros b. unfold toFixed_digits. cbn. f_equal. lia. Qed.

(** X2: [formatSize] on a byte count [b >= 0]: below 1024 it shows the
    count in B; from 1024 to 1048575 it shows [b/1024] with one decimal in
    KB, a printed value between 1.0 and 1024.0 that reaches 1024.0 exactly
    from 1048525 bytes on (so "1024.0 KB" is shown rather than "1.0 MB");
    from 1048576 on it shows [b/1048576] in MB; [undefined] gives "NaN MB". *)
Theorem formatSize_units : forall b : Z, (0 <= b)%Z ->
  ((b < 1024)%Z -> formatSize (JNum (inject_Z b)) = TVal (JNum (inject_Z b)) +++ TStr " B") /\
  ((1024 <= b < 1048576)%Z ->
     formatSize (JNum (inject_Z b)) = TFixed (Some (inject_Z b / 1024)%Q) 1 +++ TStr " KB" /\
     (10 <= toFixed_digits (inject_Z b / 1024)%Q 1 <= 10240)%Z /\
     (toFixed_digits (inject_Z b / 1024)%Q 1 = 10240%Z <-> (1048525 <= b)%Z)) /\
  ((1048576 <= b)%Z ->
     formatSize (JNum (inject_Z b))
     = TFixed (Some (inject_Z b / (1024 * 1024))%Q) 1 +++ TStr " MB") /\
  formatSize JUndefined = TFixed None 1 +++ TStr " MB".
Proof.
  intros b Hb.
  assert (Hlt : forall c : Z, js_lt (JNum (inject_Z b)) (inject_Z c) = Z.ltb b c).
  { intros c. unfold js_lt, to_num. destruct (Z.ltb b c) eqn:E.
    - apply Z.ltb_lt in E. apply negb_true_iff. apply not_true_iff_false.
      intros H. apply Qle_bool_iff in H. rewrite <- Zle_Qle in H. lia.
    - apply Z.ltb_ge in E. apply negb_false_iff. apply Qle_bool_iff.
      rewrite <- Zle_Qle. lia. }
  unfold formatSize.
  change 1024%Q with (inject_Z 1024). change (inject_Z 1024 * inject_Z 1024)%Q with (inject_Z 1048576).
  rewrite !Hlt. split; [| split; [| split]].
  - intros H. apply Z.ltb_lt in H. rewrite H. reflexivity.
  - intros H. rewrite (proj2 (Z.ltb_ge b 1024)) by lia.
    rewrite (proj2 (Z.ltb_lt b 1048576)) by lia.
    change (inject_Z 1024) with 1024%Q. rewrite toFixed_digits_kb.
    pose proof (Z.div_mod (b * 20 + 1024) 2048 ltac:(lia)).
    pose proof (Z.mod_pos_bound (b * 20 + 1024) 2048 ltac:(lia)).
    split; [reflexivity |]. split; [lia |].
    split; intros H'; lia.
  - intros H. rewrite (proj2 (Z.ltb_ge b 1024)) by lia.
    rewrite (proj2 (Z.ltb_ge b 1048576)) by lia. reflexivity.
  - reflexivity.
Qed.

Lemma formatSize_units_witness :
  formatSize (JNum (inject_Z 1048575)) = TFixed (Some (inject_Z 1048575 / 1024)%Q) 1 +++ TStr " KB" /\
  toFixed_digits (inject_Z 1048575 / 1024)%Q 1 = 10240%Z.
Proof.
  destruct (proj1 (proj2 (formatSize_units 1048575 ltac:(lia))) ltac:(lia)) as [H1 [_ H3]].
  split; [exact H1 | apply (proj2 H3); lia].
Defined.

(** X1: [formatTime] of [seconds >= 0] shows whole hours [h] and whole
    minutes [m < 60] with [3600h + 60m <= seconds < 3600h + 60m + 60]: the
    seconds are truncated, never rounded; the hours part is left out when
    [h = 0]. *)
Theorem formatTime_whole_minutes : forall sec : Q, (0 <= sec)%Q ->
  exists h m : Z, (0 <= h)%Z /\ (0 <= m < 60)%Z /\
    (inject_Z (3600 * h + 60 * m) <= sec < inject_Z (3600 * h + 60 * m + 60))%Q /\
    formatTime sec
    = (if Z.ltb 0 h then TVal (JNum (inject_Z h)) +++ TStr "h " +++ TVal (JNum (inject_Z m)) +++ TStr "m"
       else TVal (JNum (inject_Z m)) +++ TStr "m").
Proof.
  intros sec Hs.
  set (h := Qfloor (sec / 3600)).
  set (m := Qfloor ((sec - 3600 * inject_Z h) / 60)).
  exists h, m.
  pose proof (Qfloor_le (sec / 3600)) as Hh1.
  pose proof (Qlt_floor (sec / 3600)) as Hh2.
  pose proof (Qfloor_le ((sec - 3600 * inject_Z h) / 60)) as Hm1.
  pose proof (Qlt_floor ((sec - 3600 * inject_Z h) / 60)) as Hm2.
  fold h in Hh1, Hh2. fold m in Hm1, Hm2.
  rewrite inject_Z_plus in Hh2, Hm2.
  change (sec / 3600)%Q with (sec * (1 # 3600))%Q in Hh1, Hh2.
  change ((sec - 3600 * inject_Z h) / 60)%Q with ((sec - 3600 * inject_Z h) * (1 # 60))%Q in Hm1, Hm2.
  change (inject_Z 1) with 1%Q in Hh2, Hm2.
  assert (Hh0 : (-1 < h)%Z).
  { rewrite Zlt_Qlt. change (inject_Z (-1)) with (-1)%Q. set (hq := inject_Z h) in *. lra. }
  assert (Hm0 : (-1 < m)%Z).
  { rewrite Zlt_Qlt. change (inject_Z (-1)) with (-1)%Q.
    set (hq := inject_Z h) in *. set (mq := inject_Z m) in *. lra. }
  assert (Hm60 : (m < 60)%Z).
  { rewrite Zlt_Qlt. change (inject_Z 60) with 60%Q.
    set (hq := inject_Z h) in *. set (mq := inject_Z m) in *. lra. }
  split; [lia | split; [lia | split]].
  - rewrite !inject_Z_plus, !inject_Z_mult.
    change (inject_Z 3600) with 3600%Q. change (inject_Z 60) with 60%Q.
    set (hq := inject_Z h) in *. set (mq := inject_Z m) in *. split; lra.
  - reflexivity.
Qed.

Lemma formatTime_whole_minutes_witness :
  exists h m : Z, (0 <= h)%Z /\ (0 <= m < 60)%Z /\
    (inject_Z (3600 * h + 60 * m) <= 3725%Q < inject_Z (3600 * h + 60 * m + 60))%Q /\
    formatTime 3725%Q
    = (if Z.ltb 0 h then TVal (JNum (inject_Z h)) +++ TStr "h " +++ TVal (JNum (inject_Z m)) +++ TStr "m"
       else TVal (JNum (inject_Z m)) +++ TStr "m").
Proof. apply formatTime_whole_minutes. lra. Defined.



(** X3: [selectFile f] sends one POST with the file name; the answer's
    [success] alone (not [response.ok]) decides whether [selectedFile]
    becomes [f], with a "Selected" toast, or stays as it was, with the
    answer's [error] as toast.  After a successful selection [startPrint]
    prints [f], except for the empty name, for which it warns
    'No file selected' and sends nothing.  A network failure rejects the
    call with the selection and the toasts unchanged. *)
Theorem selectFile_then_startPrint : forall f s,
  (forall ok st fs, net s (length (requests s)) = Response ok st (Some (JObj fs)) ->
     let s' := snd (selectFile f s) in
     fst (selectFile f s) = Ret tt /\
     requests s' = (requests s ++ [POST "/api/select_file" (JObj [("filename", JStr f)])])%list /\
     selectedFile s' = (if truthy (assoc_get "success" fs) then Some f else selectedFile s) /\
     alerts s' = (alerts s ++ [if truthy (assoc_get "success" fs)
                               then (TStr "Selected: " +++ TStr f, "success")
                               else (TVal (assoc_get "error" fs), "error")])%list /\
     (truthy (assoc_get "success" fs) = true -> f <> "" -> startPrint s' = printFile f s') /\
     (truthy (assoc_get "success" fs) = true -> f = "" ->
        fst (startPrint s') = Ret tt /\ requests (snd (startPrint s')) = requests s' /\
        alerts (snd (startPrint s')) = (alerts s' ++ [(TStr "No file selected", "warning")])%list)) /\
  (forall e, net s (length (requests s)) = NetError e ->
     fst (selectFile f s) = Throw e /\
     selectedFile (snd (selectFile f s)) = selectedFile s /\
     alerts (snd (selectFile f s)) = alerts s).
Proof.
  intros f s. split.
  - intros ok st fs Hnet s'.
    unfold s', selectFile, fetch, issue, settle, json, prop, bind, ret, modify,
      addConsoleMessage, showAlert.
    destruct s; cbn in *. rewrite Hnet. cbn.
    destruct (truthy (assoc_get "success" fs)); cbn.
    + refine (conj eq_refl (conj eq_refl (conj eq_refl (conj eq_refl (conj _ _))))).
      * intros _ Hf. apply String.eqb_neq in Hf. rewrite Hf. reflexivity.
      * intros _ ->. repeat split.
    + repeat split; try reflexivity; discriminate.
  - intros e Hnet.
    unfold selectFile, fetch, issue, settle, json, prop, bind, ret, throw, modify,
      addConsoleMessage, showAlert.
    destruct s; cbn in *. rewrite Hnet. cbn. repeat split.
Qed.

Lemma selectFile_then_startPrint_witness :
  let s := init (fun _ => reply (JObj [("success", JBool true)])) in
  let s' := snd (selectFile "cube.ctb" s) in
  selectedFile s' = Some "cube.ctb" /\ startPrint s' = printFile "cube.ctb" s'.
Proof.
  intros s s'.
  destruct (proj1 (selectFile_then_startPrint "cube.ctb" s) true 200%Z
              [("success", JBool true)] eq_refl) as [_ [_ [H3 [_ [H5 _]]]]].
  split; [exact H3 | apply H5; [reflexivity | discriminate]].
Defined.

(** X4: [deleteFile] never changes [selectedFile]; a successful deletion
    sends the POST then re-fetches the file list and shows one toast, and
    when the deleted file was the selected one, [startPrint] afterwards
    still asks the printer to print it. *)
Theorem deleteFile_keeps_selection : forall f s,
  selectedFile (snd (deleteFile true f s)) = selectedFile s /\
  (forall st fs, net s (length (requests s)) = Response true st (Some (JObj fs)) ->
     truthy (assoc_get "success" fs) = true ->
     let s' := snd (deleteFile true f s) in
     fst (deleteFile true f s) = Ret tt /\
     requests s' = (requests s ++ [POST "/api/delete_file" (JObj [("filename", JStr f)]);
                                   GET "/api/files"])%list /\
     alerts s' = (alerts s ++ [(TStr "File deleted", "success")])%list /\
     (selectedFile s = Some f -> f <> "" -> startPrint s' = printFile f s')).
Proof.
  intros f s. split.
  - unfold deleteFile, fetch, issue, settle, json, prop, bind, ret, throw, modify,
      addConsoleMessage, showAlert, updateFiles_start.
    destruct s as [sf pst cl ct cd rt els rbs clk nw rq al lg]; cbn.
    destruct (nw (length rq)) as [e | ok st [b |]]; cbn; try reflexivity.
    destruct b; cbn; try reflexivity.
    destruct (truthy _); reflexivity.
  - intros st fs Hnet Hs s'.
    unfold s', deleteFile, fetch, issue, settle, json, prop, bind, ret, modify,
      addConsoleMessage, showAlert, updateFiles_start.
    destruct s; cbn in *. rewrite Hnet. cbn. rewrite Hs. cbn.
    rewrite <- !app_assoc. repeat split; try reflexivity.
    intros Hsel Hf. unfold startPrint, gets, bind. cbn. rewrite Hsel.
    apply String.eqb_neq in Hf. rewrite Hf. reflexivity.
Qed.

Lemma deleteFile_keeps_selection_witness :
  let s := set_selectedFile (Some "cube.ctb")
             (init (fun _ => reply (JObj [("success", JBool true)]))) in
  let s' := snd (deleteFile true "cube.ctb" s) in
  selectedFile s' = Some "cube.ctb" /\ startPrint s' = printFile "cube.ctb" s'.
Proof.
  intros s s'.
  destruct (deleteFile_keeps_selection "cube.ctb" s) as [H1 H2].
  destruct (H2 200%Z [("success", JBool true)] eq_refl eq_refl) as [_ [_ [_ H4]]].
  split; [exact H1 | apply H4; [reflexivity | discriminate]].
Defined.

(** X5: [getRelayStatus] never throws and shows no toast: it returns the
    JSON of an ok response, and [null] for a response that is not ok, for
    a body that is not JSON and for a network failure; only the last two
    log a console error. *)
Theorem getRelayStatus_never_throws : forall s,
  let s' := snd (getRelayStatus s) in
  fst (getRelayStatus s)
    = Ret (match net s (length (requests s)) with
           | Response true _ (Some data) => data
           | _ => JNull
           end) /\
  requests s' = (requests s ++ [GET "/api/plugins/relay_controller/get_status"])%list /\
  alerts s' = alerts s /\
  relayButtons s' = relayButtons s /\
  length (logged s') = length (logged s)
    + match net s (length (requests s)) with
      | NetError _ | Response true _ None => 1
      | _ => 0
      end.
Proof.
  intros s s'. unfold s', getRelayStatus, try_catch, fetch, issue, settle, json,
    bind, ret, throw, console_error, modify.
  destruct s as [sf pst cl ct cd rt els rbs clk nw rq al lg]; cbn.
  destruct (nw (length rq)) as [e | [|] st [b |]]; cbn;
    rewrite ?length_app; cbn; repeat split; lia.
Qed.

Lemma toggleRelay_requests : forall rid s,
  requests (snd (toggleRelay rid s))
  = if relayToggling s then requests s else (requests s ++ [GET (toggle_url rid)])%list.
Proof.
  intros rid s. unfold toggleRelay, toggleRelay_resume, try_finally, try_catch, bind,
    gets, modify, issue, settle, json, prop, ret, throw, updateRelayButtonState,
    showAlert, console_error.
  destruct s as [sf pst cl ct cd rt els rbs clk nw rq al lg]; cbn. destruct rt; cbn; [reflexivity |].
  destruct (nw (length rq)) as [e | [|] st [b |]]; cbn; try reflexivity;
    destruct b; cbn; try reflexivity;
    repeat match goal with |- context [if ?c then _ else _] => destruct c; cbn end;
    reflexivity.
Qed.

(** X6: for a one-character key, the keydown listener sends a toggle
    request for relay_k exactly when Ctrl is held, k is one of 1, 2, 3, 4
    and no toggle is in flight; otherwise it sends nothing. *)
Theorem onKeydown_relay_shortcut : forall ctrl c s,
  requests (snd (onKeydown ctrl (String c EmptyString) s))
  = if ctrl && existsb (String.eqb (String c EmptyString)) ["1"; "2"; "3"; "4"]
       && negb (relayToggling s)
    then (requests s ++ [GET ("/api/plugins/relay_controller/toggle_relay/relay_"
                              ++ String c EmptyString)])%list
    else requests s.
Proof.
  intros ctrl c s. unfold onKeydown.
  assert (Hk : String.leb "1" (String c EmptyString) && String.leb (String c EmptyString) "4"
               = existsb (String.eqb (String c EmptyString)) ["1"; "2"; "3"; "4"]).
  { destruct c as [[] [] [] [] [] [] [] []]; vm_compute; reflexivity. }
  destruct ctrl; cbn [andb]; [| reflexivity].
  rewrite <- Hk.
  destruct (String.leb "1" (String c EmptyString)); cbn [andb]; [| reflexivity].
  destruct (String.leb (String c EmptyString) "4"); cbn [andb negb]; [| reflexivity].
  rewrite toggleRelay_requests. destruct (relayToggling s); reflexivity.
Qed.



Lemma set_relayButtons_twice : forall a b s,
  set_relayButtons a (set_relayButtons b s) = set_relayButtons a s.
Proof. intros a b []; reflexivity. Qed.







Lemma preserves_paint_relays : forall (P : state -> Prop) es,
  (forall s bs, P s -> P (set_relayButtons bs s)) -> preserves P (paint_relays es).
Proof.
  intros P es HP. induction es as [| [k v] es IH]; cbn [paint_relays].
  - apply preserves_ret.
  - unfold updateRelayButtonState. preserves_tac; [| exact IH]. intros s0. apply HP.
Qed.

Lemma try_catch_fetch : forall A r (k : response -> M A) h s,
  try_catch (resp <- fetch r ;; k resp) h s
  = try_catch (resp <- settle (net s (length (requests s))) ;; k resp) h
              (set_requests (requests s ++ [r])%list s).
Proof. reflexivity. Qed.

Lemma try_catch_logs : forall (m : M unit) (t : js_error -> txt) s,
  fst (try_catch m (fun e => console_error (t e)) s) = Ret tt.
Proof. intros m t s. unfold try_catch. destruct (m s) as [[[] | e] s1]; reflexivity. Qed.

(** X8: [refreshRelayStates] never throws and never shows a toast; it
    sends exactly one GET; on an HTTP error status it changes no button
    and logs one 'Relay status refresh error' line. *)
Theorem refreshRelayStates_quiet : forall s,
  let s' := snd (refreshRelayStates s) in
  fst (refreshRelayStates s) = Ret tt /\
  alerts s' = alerts s /\
  requests s' = (requests s ++ [GET "/api/plugins/relay_controller/get_status"])%list /\
  (forall st b, net s (length (requests s)) = Response false st b ->
     relayButtons s' = relayButtons s /\
     logged s' = (logged s ++ [TStr "Relay status refresh error: " +++ err_message (http_error st)])%list).
Proof.
  intros s s'. unfold s', refreshRelayStates. split; [apply try_catch_logs |].
  rewrite try_catch_fetch. split; [| split].
  - apply (preserves_run (fun s0 => alerts s0 = alerts s)); [| destruct s; reflexivity].
    apply preserves_try_catch.
    + unfold settle, json, object_entries. preserves_tac;
        apply preserves_paint_relays; intros [] ? H; exact H.
    + intros e. unfold console_error. preserves_tac. intros [] H; exact H.
  - apply (preserves_run (fun s0 => requests s0
             = (requests s ++ [GET "/api/plugins/relay_controller/get_status"])%list));
      [| destruct s; reflexivity].
    apply preserves_try_catch.
    + unfold settle, json, object_entries. preserves_tac;
        apply preserves_paint_relays; intros [] ? H; exact H.
    + intros e. unfold console_error. preserves_tac. intros [] H; exact H.
  - intros st b Hnet. rewrite Hnet. destruct s; cbn. split; reflexivity.
Qed.

Lemma refreshRelayStates_quiet_witness :
  let s := init (fun _ => Response false 503%Z None) in
  relayButtons (snd (refreshRelayStates s)) = relayButtons s /\
  logged (snd (refreshRelayStates s))
  = (logged s ++ [TStr "Relay status refresh error: " +++ err_message (http_error 503%Z)])%list.
Proof.
  intros s.
  exact (proj2 (proj2 (proj2 (refreshRelayStates_quiet s))) 503%Z None eq_refl).
Defined.

(** X10: [checkUSB] never throws, never shows a toast, sends exactly one
    GET and leaves the relay buttons alone, whatever the answer and
    whichever elements exist. *)
Theorem checkUSB_quiet : forall s,
  let s' := snd (checkUSB s) in
  fst (checkUSB s) = Ret tt /\
  alerts s' = alerts s /\
  requests s' = (requests s ++ [GET "/api/usb_status"])%list /\
  relayButtons s' = relayButtons s.
Proof.
  intros s s'. unfold s', checkUSB, checkUSB_resume.
  change (bind (issue (GET "/api/usb_status")) ?k s)
    with (k (net s (length (requests s))) (set_requests (requests s ++ [GET "/api/usb_status"])%list s)).
  cbv beta. split; [apply try_catch_logs |].
  apply (preserves_run (fun s0 => alerts s0 = alerts s
           /\ requests s0 = (requests s ++ [GET "/api/usb_status"])%list
           /\ relayButtons s0 = relayButtons s)); [| destruct s; repeat split].
  apply preserves_try_catch.
  - unfold settle, json. preserves_tac; intros [] H; exact H.
  - intros e. unfold console_error. preserves_tac. intros [] H; exact H.
Qed.

Lemma prop_truthy : forall v k,
  truthy v = true -> prop v k = ret (assoc_get k (entries v)).
Proof. intros v k H. destruct v; cbn in *; first [reflexivity | discriminate]. Qed.

Lemma checkUSB_unfold : forall s,
  checkUSB s = checkUSB_resume (net s (length (requests s)))
                 (set_requests (requests s ++ [GET "/api/usb_status"])%list s).
Proof. reflexivity. Qed.

Ltac state_norm :=
  unfold set_elements, set_requests, set_logged;
  cbn [ set_requests set_logged elements selectedFile printStartTime
       consoleLines currentConfigTab configData relayToggling relayButtons clock net
       requests alerts logged].

Ltac usb_present :=
  state_norm; rewrite ?el_present_update; assumption.

Ltac usb_step :=
  first
    [ rewrite bind_assoc_s
    | rewrite bind_prop_obj
    | rewrite bind_ret_l
    | rewrite bind_update_el by usb_present
    | rewrite update_el_present by usb_present
    | progress state_norm
    | match goal with
      | H : truthy ?v = true |- context [prop ?v ?k] => rewrite (prop_truthy v k H)
      | |- context [bind (if ?b then _ else _) _ _] => destruct b eqn:?
      | |- context [(if ?b then _ else _) _] => destruct b eqn:?
      end ].

Lemma el_present_of_lookup : forall id els e,
  el_lookup id els = Some e -> el_present id els = true.
Proof. intros id els e H. unfold el_present. rewrite H. reflexivity. Qed.

(** X9: with the three USB elements present and an object as answer
    (whatever its HTTP status), [checkUSB] shows Running/Stopped and
    Mounted/Not Mounted by truthiness, and shows the free space in GB
    with one decimal only when [usb_space.free] is truthy: a free space
    of 0, or a missing [usb_space], shows "Unknown".  Nothing is logged. *)
Theorem checkUSB_display : forall s ok st fs e1 e2 e3,
  net s (length (requests s)) = Response ok st (Some (JObj fs)) ->
  el_lookup "usbService" (elements s) = Some e1 ->
  el_lookup "usbMount" (elements s) = Some e2 ->
  el_lookup "usbSpace" (elements s) = Some e3 ->
  let s' := snd (checkUSB s) in
  let space := assoc_get "usb_space" fs in
  let free := if truthy space then assoc_get "free" (entries space) else space in
  el_get el_text "usbService" s'
    = Some (TStr (if truthy (assoc_get "service_running" fs) then "Running" else "Stopped")) /\
  el_get el_text "usbMount" s'
    = Some (TStr (if truthy (assoc_get "mounted" fs) then "Mounted" else "Not Mounted")) /\
  el_get el_text "usbSpace" s'
    = Some (if truthy free
            then TFixed (nmap2 Qdiv (to_num free) (Some (1024 * 1024 * 1024)%Q)) 1 +++ TStr " GB"
            else TStr "Unknown") /\
  el_get el_classes "usbSpace" s' = Some ["usb-value"] /\
  logged s' = logged s.
Proof.
  intros s ok st fs e1 e2 e3 Hnet H1 H2 H3 s' space free.
  unfold s', free, space. clear s' free space.
  pose proof (el_present_of_lookup _ _ _ H1) as P1.
  pose proof (el_present_of_lookup _ _ _ H2) as P2.
  pose proof (el_present_of_lookup _ _ _ H3) as P3.
  destruct s as [sf pst cl ct cd rt els rbs clk nw rq al lg].
  cbn [elements net requests logged] in *.
  rewrite checkUSB_unfold. cbn [net requests]. rewrite Hnet. unfold checkUSB_resume, try_catch.
  cbn [settle]. rewrite bind_ret_l. unfold json. cbn [resp_body]. rewrite bind_ret_l.
  all: repeat usb_step.
  all: repeat split.
  all: unfold el_get; cbn [snd elements]; rewrite ?el_lookup_update_eqb;
       cbn [String.eqb Ascii.eqb Bool.eqb]; rewrite ?H1, ?H2, ?H3;
       cbn [option_map el_text el_classes set_text set_classes logged]; try reflexivity; try congruence.
Qed.

Lemma checkUSB_display_witness :
  let s := set_elements (fun _ => Some blank)
             (init (fun _ => reply (JObj [("service_running", JBool true);
                                          ("mounted", JBool false);
                                          ("usb_space", JObj [("free", JNum 0)])]))) in
  el_get el_text "usbService" (snd (checkUSB s)) = Some (TStr "Running") /\
  el_get el_text "usbMount" (snd (checkUSB s)) = Some (TStr "Not Mounted") /\
  el_get el_text "usbSpace" (snd (checkUSB s)) = Some (TStr "Unknown").
Proof.
  intros s.
  destruct (checkUSB_display s true 200%Z
              [("service_running", JBool true); ("mounted", JBool false);
               ("usb_space", JObj [("free", JNum 0)])] blank blank blank
              eq_refl eq_refl eq_refl eq_refl) as [H1 [H2 [H3 _]]].
  exact (conj H1 (conj H2 H3)).
Defined.



(** X11: on page load, with the upload area and file input present, the
    page sends exactly the GETs of the status, the file list, the USB
    status and the status bar items, in this order, logs its two console
    lines and shows no toast; without the upload area the listener throws
    before sending anything and changes nothing. *)
Theorem onDOMContentLoaded_requests : forall s,
  let s' := snd (onDOMContentLoaded s) in
  (el_present "uploadArea" (elements s) = true ->
   el_present "fileInput" (elements s) = true ->
   fst (onDOMContentLoaded s) = Ret tt /\
   requests s' = (requests s ++ [GET "/api/status"; GET "/api/files"; GET "/api/usb_status";
                                 GET "/api/config/ui/status_bar_items"])%list /\
   alerts s' = alerts s /\
   consoleLines s'
     = console_push (TStr "[" +++ TTime (clock s) +++ TStr "] "
                     +++ TStr "Waiting for printer connection...", "")
         (console_push (TStr "[" +++ TTime (clock s) +++ TStr "] "
                        +++ TStr "System initialized with plugin support", "info")
            (consoleLines s))) /\
  (el_present "uploadArea" (elements s) = false ->
   fst (onDOMContentLoaded s) = Throw (type_error "Cannot read properties of null") /\ s' = s).
Proof.
  intros s s'. unfold s', el_present. split.
  - intros Hu Hf.
    destruct (el_lookup "uploadArea" (elements s)) as [eu |] eqn:Eu; [| discriminate].
    destruct (el_lookup "fileInput" (elements s)) as [ef |] eqn:Ef; [| discriminate].
    unfold onDOMContentLoaded, setupUpload, fetch_start, updateFiles_start, get_el,
      issue, addConsoleMessage, bind, ret, modify.
    rewrite Eu, Ef. destruct s; cbn. rewrite <- !app_assoc. repeat split.
  - intros Hu.
    destruct (el_lookup "uploadArea" (elements s)) as [eu |] eqn:Eu; [discriminate |].
    unfold onDOMContentLoaded, setupUpload, get_el, bind. rewrite Eu. split; reflexivity.
Qed.

Lemma onDOMContentLoaded_requests_witness :
  requests (snd (onDOMContentLoaded (set_elements (fun _ => Some blank) (init offline))))
  = [GET "/api/status"; GET "/api/files"; GET "/api/usb_status";
     GET "/api/config/ui/status_bar_items"] /\
  fst (onDOMContentLoaded (init offline)) = Throw (type_error "Cannot read properties of null").
Proof.
  split.
  - exact (proj1 (proj2 (proj1 (onDOMContentLoaded_requests
                                   (set_elements (fun _ => Some blank) (init offline)))
                                eq_refl eq_refl))).
  - exact (proj1 (proj2 (onDOMContentLoaded_requests (init offline)) eq_refl)).
Defined.

Lemma prio_le_total : forall a b,
  num_key a -> num_key b -> prio_le a b = false -> prio_le b a = true.
Proof.
  intros a b Ha Hb H. unfold prio_le, num_key in *.
  destruct (prio_key a) as [x |]; [| congruence]. destruct (prio_key b) as [y |]; [| congruence].
  cbn in *. apply Qle_bool_iff. rewrite <- Bool.not_true_iff_false, Qle_bool_iff in H. lra.
Qed.

Lemma prio_le_trans : forall a b c,
  num_key a -> num_key b -> num_key c ->
  prio_le a b = true -> prio_le b c = true -> prio_le a c = true.
Proof.
  intros a b c Ha Hb Hc H1 H2. unfold prio_le, num_key in *.
  destruct (prio_key a) as [x |]; [| congruence]. destruct (prio_key b) as [y |]; [| congruence].
  destruct (prio_key c) as [z |]; [| congruence].
  cbn in *. apply Qle_bool_iff. apply Qle_bool_iff in H1, H2. lra.
Qed.

Lemma insert_item_perm : forall x l, Permutation (insert_item x l) (x :: l).
Proof.
  intros x l. induction l as [| y l IH]; cbn; [reflexivity |].
  destruct (prio_le y x); [| reflexivity].
  rewrite IH. apply perm_swap.
Qed.

Lemma sort_items_perm_aux : forall items acc,
  Permutation (fold_left (fun acc x => insert_item x acc) items acc) (items ++ acc).
Proof.
  induction items as [| x items IH]; intros acc; cbn; [reflexivity |].
  rewrite IH, insert_item_perm. symmetry. apply Permutation_middle.
Qed.

Lemma sort_items_perm : forall items, Permutation (sort_items items) items.
Proof.
  intros items. unfold sort_items. rewrite sort_items_perm_aux, app_nil_r. reflexivity.
Qed.

Lemma Forall_perm_num : forall l l', Permutation l l' -> Forall num_key l -> Forall num_key l'.
Proof.
  intros l l' Hp H. rewrite Forall_forall in *. intros x Hx.
  apply H. apply (Permutation_in x (Permutation_sym Hp) Hx).
Qed.

Lemma insert_item_sorted : forall x l,
  Forall num_key (x :: l) -> Sorted R_item l -> Sorted R_item (insert_item x l).
Proof.
  intros x l. induction l as [| y l IH]; intros Hn Hs; cbn.
  - repeat constructor.
  - inversion Hn as [| ? ? Hx Hyl]; subst. inversion Hyl as [| ? ? Hy Hl]; subst.
    inversion Hs as [| ? ? Hsl Hhd]; subst.
    destruct (prio_le y x) eqn:E.
    + constructor; [apply IH; [constructor |]; assumption |].
      destruct l as [| z l]; cbn; [constructor; exact E |].
      destruct (prio_le z x); constructor; [inversion Hhd; assumption | exact E].
    + constructor; [constructor; assumption |]. constructor.
      apply prio_le_total; assumption.
Qed.

Lemma sort_items_sorted_aux : forall items acc,
  Forall num_key items -> Forall num_key acc -> Sorted R_item acc ->
  Sorted R_item (fold_left (fun acc x => insert_item x acc) items acc).
Proof.
  induction items as [| x items IH]; intros acc Hi Ha Hs; cbn; [exact Hs |].
  inversion Hi; subst. apply IH; [assumption | |].
  - apply (Forall_perm_num (x :: acc)); [symmetry; apply insert_item_perm | constructor; assumption].
  - apply insert_item_sorted; [constructor |]; assumption.
Qed.

Lemma sorted_strongly : forall l,
  Forall num_key l -> Sorted R_item l -> StronglySorted R_item l.
Proof.
  induction l as [| a l IH]; intros Hn Hs; [constructor |].
  inversion Hn as [| ? ? Ha Hl]; subst. apply Sorted_inv in Hs. destruct Hs as [Hs Hhd].
  constructor; [apply IH; assumption |].
  specialize (IH Hl Hs). clear Hs.
  destruct l as [| b l]; [constructor |].
  inversion Hhd as [| ? ? Hab]; subst. inversion Hl as [| ? ? Hb Hl']; subst.
  inversion IH as [| ? ? IH' Hfa]; subst.
  constructor; [exact Hab |].
  rewrite Forall_forall in Hfa, Hl' |- *. intros c Hc.
  apply (prio_le_trans a b c Ha Hb (Hl' c Hc) Hab (Hfa c Hc)).
Qed.

Lemma strongly_filter : forall p l,
  StronglySorted R_item l -> StronglySorted R_item (filter p l).
Proof.
  intros p. induction l as [| a l IH]; intros H; cbn; [constructor |].
  inversion H as [| ? ? Hl Hfa]; subst.
  destruct (p a); [| apply IH; exact Hl].
  constructor; [apply IH; exact Hl |].
  rewrite Forall_forall in Hfa |- *. intros x Hx. apply filter_In in Hx. apply Hfa, Hx.
Qed.

Lemma filter_partition_perm : forall (p : item -> bool) l,
  Permutation l (filter p l ++ filter (fun x => negb (p x)) l).
Proof.
  intros p. induction l as [| a l IH]; cbn; [reflexivity |].
  destruct (p a); cbn.
  - constructor. exact IH.
  - rewrite IH at 1. apply Permutation_middle.
Qed.

(** X12: when every [priority || 100] is a number, [updatePluginStatusItems]
    distributes all the items, each once, between the two containers:
    the main one gets exactly those with a truthy priority below 50, both
    in ascending [priority || 100]; an item with priority 0 or without
    priority goes to the additional container. *)
Theorem updatePluginStatusItems_partition : forall items s,
  el_present "pluginStatusItems" (elements s) = true ->
  el_present "additionalStatusItems" (elements s) = true ->
  Forall (fun it => prio_key it <> None) items ->
  exists main extra,
    updatePluginStatusItems items s = (Ret (main, extra), s) /\
    Permutation items (main ++ extra) /\
    Forall (fun it => in_main it = true) main /\
    Forall (fun it => in_main it = false) extra /\
    Sorted (fun a b => prio_le a b = true) main /\
    Sorted (fun a b => prio_le a b = true) extra /\
    (forall it, In it items ->
       assoc_get "priority" it = JUndefined \/ assoc_get "priority" it = JNum 0 ->
       In it extra).
Proof.
  intros items s Hp1 Hp2 Hn.
  unfold el_present in Hp1, Hp2.
  exists (filter in_main (sort_items items)),
         (filter (fun it => negb (in_main it)) (sort_items items)).
  assert (Hsn : Forall num_key (sort_items items)).
  { apply (Forall_perm_num items); [symmetry; apply sort_items_perm | exact Hn]. }
  assert (Hss : StronglySorted R_item (sort_items items)).
  { apply sorted_strongly; [exact Hsn |].
    apply sort_items_sorted_aux; [exact Hn | constructor | constructor]. }
  split; [| split; [| split; [| split; [| split; [| split]]]]].
  - unfold updatePluginStatusItems, get_el, bind, ret.
    destruct (el_lookup "pluginStatusItems" (elements s)); [| discriminate].
    destruct (el_lookup "additionalStatusItems" (elements s)); [| discriminate].
    reflexivity.
  - rewrite <- filter_partition_perm. symmetry. apply sort_items_perm.
  - apply Forall_forall. intros x Hx. apply filter_In in Hx. apply Hx.
  - apply Forall_forall. intros x Hx. apply filter_In in Hx.
    destruct Hx as [_ Hx]. destruct (in_main x); [discriminate | reflexivity].
  - apply StronglySorted_Sorted, strongly_filter, Hss.
  - apply StronglySorted_Sorted, strongly_filter, Hss.
  - intros it Hin Hp. apply filter_In. split.
    + apply (Permutation_in it (Permutation_sym (sort_items_perm items)) Hin).
    + unfold in_main. destruct Hp as [-> | ->]; reflexivity.
Qed.

Lemma updatePluginStatusItems_partition_witness :
  let items := [[("priority", JNum 60)]; [("priority", JNum 10)]; [("priority", JNum 0)]] in
  let s := set_elements (fun _ => Some blank) (init offline) in
  exists main extra,
    updatePluginStatusItems items s = (Ret (main, extra), s) /\
    In [("priority", JNum 0)] extra.
Proof.
  intros items s.
  destruct (updatePluginStatusItems_partition items s eq_refl eq_refl
              ltac:(repeat constructor; discriminate))
    as [main [extra [H1 [_ [_ [_ [_ [_ H7]]]]]]]].
  exists main, extra. split; [exact H1 |].
  apply H7; [simpl; auto | right; reflexivity].
Defined.



Lemma assoc_get_set_same : forall k v fs, assoc_get k (assoc_set k v fs) = v.
Proof.
  intros k v fs. induction fs as [| [k' w] fs IH]; cbn.
  - rewrite String.eqb_refl. reflexivity.
  - destruct (String.eqb k k') eqn:E; cbn; rewrite ?E; [reflexivity | exact IH].
Qed.

Lemma assoc_get_set_other : forall k k' v fs,
  k' <> k -> assoc_get k' (assoc_set k v fs) = assoc_get k' fs.
Proof.
  intros k k' v fs Hne. induction fs as [| [k0 w] fs IH]; cbn.
  - apply String.eqb_neq in Hne. rewrite Hne. reflexivity.
  - destruct (String.eqb k k0) eqn:E; cbn.
    + apply String.eqb_eq in E. subst k0. apply String.eqb_neq in Hne. rewrite Hne. reflexivity.
    + destruct (String.eqb k' k0); [reflexivity | exact IH].
Qed.

Lemma assoc_set_in : forall k v fs, In (k, v) (assoc_set k v fs).
Proof.
  intros k v fs. induction fs as [| [k' w] fs IH]; cbn; [left; reflexivity |].
  destruct (String.eqb k k') eqn:E.
  - apply String.eqb_eq in E. subst. left. reflexivity.
  - right. exact IH.
Qed.

Lemma assoc_get_in : forall k fs w,
  assoc_get k fs = w -> w <> JUndefined -> In (k, w) fs.
Proof.
  intros k fs. induction fs as [| [k' w'] fs IH]; intros w H Hw; cbn in *.
  - congruence.
  - destruct (String.eqb k k') eqn:E.
    + apply String.eqb_eq in E. subst. left. reflexivity.
    + right. apply IH; assumption.
Qed.

Lemma entries_falsy : forall v, truthy v = false -> entries v = [].
Proof. intros v H. destruct v; cbn in *; congruence. Qed.

(** X13: after [updateConfigValue section key value] on a section that
    is unset (falsy) or an object, [configData[section][key]] is [value],
    the section's other keys and the other sections are unchanged, and
    unless the section is named 'plugins', the next [saveConfig] sends
    the POST for this edit. *)
Theorem updateConfigValue_roundtrip : forall section key value s,
  (truthy (assoc_get section (configData s)) = true ->
   exists fs, assoc_get section (configData s) = JObj fs) ->
  let cd' := configData (snd (updateConfigValue section key value s)) in
  assoc_get key (entries (assoc_get section cd')) = value /\
  (forall key', key' <> key ->
     assoc_get key' (entries (assoc_get section cd'))
     = assoc_get key' (entries (assoc_get section (configData s)))) /\
  (forall section', section' <> section ->
     assoc_get section' cd' = assoc_get section' (configData s)) /\
  (section <> "plugins" ->
   In (POST "/api/config/app"
         (JObj [("section", JStr section); ("key", JStr key); ("value", value)]))
      (app_config_requests cd')).
Proof.
  intros section key value s Hobj cd'. unfold cd', updateConfigValue, modify. cbn [snd].
  destruct s as [sf pst cl ct cd rt els rbs clk nw rq al lg]. cbn [configData set_configData] in *.
  set (cd1 := if truthy (assoc_get section cd) then cd else assoc_set section (JObj []) cd).
  assert (H1 : exists fs, assoc_get section cd1 = JObj fs
                /\ entries (assoc_get section cd) = fs
                /\ forall sec', sec' <> section -> assoc_get sec' cd1 = assoc_get sec' cd).
  { unfold cd1. destruct (truthy (assoc_get section cd)) eqn:T.
    - destruct (Hobj eq_refl) as [fs Hfs]. exists fs. rewrite Hfs. auto.
    - exists []. rewrite assoc_get_set_same, entries_falsy by exact T.
      split; [reflexivity | split; [reflexivity |]].
      intros sec' Hne. apply assoc_get_set_other. exact Hne. }
  destruct H1 as [fs [Hfs [Hent Hother]]].
  rewrite Hfs. cbn [obj_set_prop].
  rewrite assoc_get_set_same. cbn [entries].
  split; [apply assoc_get_set_same |].
  split; [intros key' Hne; rewrite Hent; apply assoc_get_set_other; exact Hne |].
  split; [intros sec' Hne; rewrite assoc_get_set_other by exact Hne; apply Hother, Hne |].
  intros Hnp. unfold app_config_requests. apply in_flat_map.
  exists (section, JObj (assoc_set key value fs)). split.
  - apply assoc_set_in.
  - apply String.eqb_neq in Hnp. rewrite Hnp. cbn [entries].
    apply (in_map (fun '(key0, value0) =>
                     POST "/api/config/app"
                       (JObj [("section", JStr section); ("key", JStr key0); ("value", value0)]))
                  _ (key, value)).
    apply assoc_set_in.
Qed.

Lemma updateConfigValue_roundtrip_witness :
  let cd' := configData (snd (updateConfigValue "interface" "console_max_lines" (JNum 100)
                                (init offline))) in
  assoc_get "console_max_lines" (entries (assoc_get "interface" cd')) = JNum 100 /\
  In (POST "/api/config/app"
        (JObj [("section", JStr "interface"); ("key", JStr "console_max_lines");
               ("value", JNum 100)]))
     (app_config_requests cd').
Proof.
  intros cd'.
  destruct (updateConfigValue_roundtrip "interface" "console_max_lines" (JNum 100) (init offline)
              ltac:(intros H; discriminate)) as [H1 [_ [_ H4]]].
  split; [exact H1 | apply H4; discriminate].
Defined.

Lemma app_requests_plugins_set : forall v cd,
  app_config_requests (assoc_set "plugins" v cd) = app_config_requests cd.
Proof.
  intros v cd. unfold app_config_requests.
  induction cd as [| [k w] cd IH]; cbn [assoc_set].
  - reflexivity.
  - destruct (String.eqb "plugins" k) eqn:E.
    + apply String.eqb_eq in E. subst k. reflexivity.
    + cbn [flat_map]. rewrite IH. reflexivity.
Qed.

Lemma plugin_edit_lands : forall cd1 P1 c p key value,
  assoc_get p P1 = JObj c ->
  let cd' := assoc_set "plugins" (obj_set_prop (JObj P1) p
               (obj_set_prop (assoc_get p (entries (JObj P1))) key value)) cd1 in
  assoc_get key (entries (assoc_get p (entries (assoc_get "plugins" cd')))) = value /\
  (forall section', section' <> "plugins" -> assoc_get section' cd' = assoc_get section' cd1) /\
  app_config_requests cd' = app_config_requests cd1 /\
  (exists cfg, In (POST ("/api/config/plugins/" ++ p) (JObj [("config", cfg)]))
                  (plugin_config_requests cd')
               /\ assoc_get key (entries cfg) = value).
Proof.
  intros cd1 P1 c p key value Hc cd'. unfold cd'. cbn [entries]. rewrite Hc. cbn [obj_set_prop].
  rewrite assoc_get_set_same. cbn [entries]. rewrite assoc_get_set_same. cbn [entries].
  split; [apply assoc_get_set_same |].
  split; [intros sec' Hne; apply assoc_get_set_other; exact Hne |].
  split; [apply app_requests_plugins_set |].
  exists (JObj (assoc_set key value c)). split; [| apply assoc_get_set_same].
  unfold plugin_config_requests. rewrite assoc_get_set_same. cbn [truthy entries].
  apply (in_map (fun '(pluginName, pluginConfig) =>
                   POST ("/api/config/plugins/" ++ pluginName) (JObj [("config", pluginConfig)]))
                _ (p, JObj (assoc_set key value c))).
  apply assoc_set_in.
Qed.

(** X14: after [updatePluginConfigValue pluginName key value], when the
    'plugins' entry and the plugin's entry are unset (falsy) or objects,
    [configData.plugins[pluginName][key]] is [value], the other sections
    and the app settings [saveConfig] would send are unchanged, and the
    next [saveConfig] sends the plugin's config carrying the value. *)
Theorem updatePluginConfigValue_roundtrip : forall pluginName key value s,
  (truthy (assoc_get "plugins" (configData s)) = true ->
   exists ps, assoc_get "plugins" (configData s) = JObj ps) ->
  (forall ps, assoc_get "plugins" (configData s) = JObj ps ->
   truthy (assoc_get pluginName ps) = true -> exists c, assoc_get pluginName ps = JObj c) ->
  let cd' := configData (snd (updatePluginConfigValue pluginName key value s)) in
  assoc_get key (entries (assoc_get pluginName (entries (assoc_get "plugins" cd')))) = value /\
  (forall section', section' <> "plugins" ->
     assoc_get section' cd' = assoc_get section' (configData s)) /\
  app_config_requests cd' = app_config_requests (configData s) /\
  (exists cfg, In (POST ("/api/config/plugins/" ++ pluginName) (JObj [("config", cfg)]))
                  (plugin_config_requests cd')
               /\ assoc_get key (entries cfg) = value).
Proof.
  intros p key value s Hps Hpc cd'. unfold cd', updatePluginConfigValue, modify. cbn [snd].
  destruct s as [sf pst cl ct cd rt els rbs clk nw rq al lg]. cbn [configData set_configData] in *.
  destruct (truthy (assoc_get "plugins" cd)) eqn:T.
  - destruct (Hps eq_refl) as [P HP]. rewrite HP. cbn [entries].
    destruct (truthy (assoc_get p P)) eqn:T2.
    + destruct (Hpc P HP T2) as [c Hc]. exact (plugin_edit_lands cd P c p key value Hc).
    + cbn [obj_set_prop].
      exact (plugin_edit_lands cd (assoc_set p (JObj []) P) [] p key value
               (assoc_get_set_same _ _ _)).
  - rewrite (assoc_get_set_same "plugins" (JObj []) cd).
    cbn [entries assoc_get truthy obj_set_prop].
    destruct (plugin_edit_lands (assoc_set "plugins" (JObj []) cd) (assoc_set p (JObj []) [])
                [] p key value (assoc_get_set_same _ _ _)) as [A [B [C D]]].
    split; [exact A |]. split; [| split; [| exact D]].
    + intros sec' Hne. rewrite B by exact Hne. apply assoc_get_set_other, Hne.
    + rewrite <- (app_requests_plugins_set (JObj []) cd). exact C.
Qed.

Lemma updatePluginConfigValue_roundtrip_witness :
  let cd' := configData (snd (updatePluginConfigValue "relay_controller" "enabled" (JBool true)
                                (init offline))) in
  assoc_get "enabled" (entries (assoc_get "relay_controller" (entries (assoc_get "plugins" cd'))))
  = JBool true.
Proof.
  exact (proj1 (updatePluginConfigValue_roundtrip "relay_controller" "enabled" (JBool true)
                  (init offline) ltac:(intros H; discriminate)
                  ltac:(intros ps H; discriminate))).
Defined.
